(** * Text-to-PowerPoint generator: a shallow embedding of [app.py]

    The program is a Streamlit script with two functions,
    [get_slide_structure_from_llm] and [create_presentation], and a
    button handler that calls them in sequence.  The functions live on
    top of three libraries (openai, json, python-pptx).  The libraries
    are not part of the program: the services whose result cannot be
    computed from the arguments (the chat completion, the JSON parser,
    opening and saving a .pptx file, the exception of the XML layer for
    a text it refuses) are variables of the section [App]; the object
    model the program manipulates (presentation,
    layouts, slides, placeholders, text frames, paragraphs) is the small
    executable model of module [Pptx]. *)

From Stdlib Require Import String Ascii NArith ZArith Lia.
From Stdlib Require Import Floats.SpecFloat Sorting.Sorted.
From stdpp Require Import base list.

Set Warnings "-register-all".
Local Open Scope Z_scope.

(** ** Python values *)

Module Py.

(** A Python [str] is a sequence of Unicode code points; slicing, [len],
    [strip] and [in] all count code points, so that is what the model
    keeps. *)
Definition codepoint := N.
Abbreviation str := (list codepoint).

Definition lit (s : string) : str :=
  List.map N_of_ascii (list_ascii_of_string s).
Arguments lit s%_string.

(** Characters that a Rocq string literal cannot hold conveniently. *)
Definition dquote : str := [34%N].
Definition newline : str := [10%N].

Definition str_eqb (a b : str) : bool := bool_decide (a = b).

(** [s.startswith(p)] *)
Fixpoint startswith (s p : str) {struct p} : bool :=
  match p, s with
  | [], _ => true
  | _ :: _, [] => false
  | c :: p', d :: s' => N.eqb c d && startswith s' p'
  end.

(** [sub in s] for two strings: [sub] occurs in [s] at some offset. *)
Fixpoint contains (sub s : str) : bool :=
  startswith s sub ||
  match s with
  | [] => false
  | _ :: s' => contains sub s'
  end.

(** What [sub in s] is to decide: [sub] lies somewhere inside [s]. *)
Definition occurs (sub s : str) : Prop := ∃ pre post, s = pre ++ sub ++ post.

(** [str.isspace] for one code point: the characters [str.strip()]
    removes when called without argument. *)
Definition isspace (c : codepoint) : bool :=
  ((9 <=? c) && (c <=? 13) || (28 <=? c) && (c <=? 32) ||
   (c =? 133) || (c =? 160) || (c =? 5760) ||
   (8192 <=? c) && (c <=? 8202) || (c =? 8232) || (c =? 8233) ||
   (c =? 8239) || (c =? 8287) || (c =? 12288))%N.

Fixpoint lstrip (s : str) : str :=
  match s with
  | c :: s' => if isspace c then lstrip s' else s
  | [] => []
  end.

Definition rstrip (s : str) : str := rev (lstrip (rev s)).

Definition strip (s : str) : str := rstrip (lstrip s).

(** [s[start:stop]] with Python's treatment of negative and
    out-of-range bounds (step 1). *)
Definition slice_bound (len i : Z) : Z :=
  if i <? 0 then Z.max (i + len) 0 else Z.min i len.

Definition slice (s : str) (start stop : Z) : str :=
  let len := Z.of_nat (length s) in
  let a := slice_bound len start in
  let b := slice_bound len stop in
  take (Z.to_nat (b - a)) (drop (Z.to_nat a) s).

(** [s.split(sep)] for the line feed: the piece before the first line
    feed and the pieces after it. *)
Fixpoint split_lines (s : str) : str * list str :=
  match s with
  | [] => ([], [])
  | c :: s' =>
      let '(l, ls) := split_lines s' in
      if N.eqb c 10 then ([], l :: ls) else (c :: l, ls)
  end.

(** What [json.loads] can return. *)
Inductive pyval :=
| PyNone
| PyBool (b : bool)
| PyInt (n : Z)
| PyFloat (f : spec_float)
| PyStr (s : str)
| PyList (items : list pyval)
| PyDict (entries : list (str * pyval)).

(** [type(v).__name__] *)
Definition type_name (v : pyval) : str :=
  match v with
  | PyNone => lit "NoneType"
  | PyBool _ => lit "bool"
  | PyInt _ => lit "int"
  | PyFloat _ => lit "float"
  | PyStr _ => lit "str"
  | PyList _ => lit "list"
  | PyDict _ => lit "dict"
  end.

(** Truth value of a Python object, as [if v:] takes it. *)
Definition truthy (v : pyval) : bool :=
  match v with
  | PyNone => false
  | PyBool b => b
  | PyInt n => negb (n =? 0)
  | PyFloat (S754_zero _) => false
  | PyFloat _ => true
  | PyStr s => negb (bool_decide (s = []))
  | PyList l => match l with [] => false | _ => true end
  | PyDict d => match d with [] => false | _ => true end
  end.

(** [isinstance(v, list)] *)
Definition is_list (v : pyval) : bool :=
  match v with PyList _ => true | _ => false end.

(** Exceptions derived from [Exception], the ones [except Exception]
    catches.  [exn_str] is the text [str(e)] of an f-string. *)
Inductive exn_kind :=
  AttributeError | TypeError | IndexError | ValueError | OtherError.

Record exn := Exn { exn_kind_of : exn_kind; exn_str : str }.

Inductive result (A : Type) :=
| Ok (a : A)
| Raise (e : exn).
Arguments Ok {A} a.
Arguments Raise {A} e.

Definition rbind {A B} (m : result A) (k : A -> result B) : result B :=
  match m with
  | Ok a => k a
  | Raise e => Raise e
  end.

Definition no_attribute (v : pyval) (attr : string) : exn :=
  Exn AttributeError
      (lit "'" ++ type_name v ++ lit "' object has no attribute '" ++
       lit attr ++ lit "'").

(** Lookup in a dict kept as the list of its items in insertion order. *)
Fixpoint dict_lookup (d : list (str * pyval)) (key : str) : option pyval :=
  match d with
  | [] => None
  | (k, v) :: d' => if str_eqb k key then Some v else dict_lookup d' key
  end.

(** [obj.get(key, dflt)]: only a dict has the method. *)
Definition get (obj : pyval) (key : str) (dflt : pyval) : result pyval :=
  match obj with
  | PyDict d => Ok (default dflt (dict_lookup d key))
  | _ => Raise (no_attribute obj "get")
  end.

(** [iter(v)], the sequence a [for] loop walks: the items of a list,
    the keys of a dict, the characters of a str; anything else that
    [json.loads] returns is not iterable. *)
Definition iter (v : pyval) : result (list pyval) :=
  match v with
  | PyList items => Ok items
  | PyDict d => Ok (List.map (fun kv => PyStr (fst kv)) d)
  | PyStr s => Ok (List.map (fun c => PyStr [c]) s)
  | _ => Raise (Exn TypeError
                  (lit "'" ++ type_name v ++ lit "' object is not iterable"))
  end.

(** A [for] loop whose body updates the loop state and may raise. *)
Fixpoint for_each {S A} (body : S -> A -> result S) (l : list A) (s : S)
  : result S :=
  match l with
  | [] => Ok s
  | x :: l' => rbind (body s x) (for_each body l')
  end.

(** An object reached through a handle (its position in the list that
    owns it) is updated in place; nothing happens when the position is
    not in the list, which no handle taken from that list hits. *)
Definition update_at {A} (i : nat) (f : A -> result A) (l : list A)
  : result (list A) :=
  match l !! i with
  | Some x => rbind (f x) (fun y => Ok (<[i := y]> l))
  | None => Ok l
  end.

End Py.

(** ** The python-pptx objects the program touches *)

Module Pptx.
Import Py.

(** A paragraph: its text and its indent level ([_Paragraph.level]). *)
Record paragraph := Paragraph { p_text : str; p_level : nat }.

Definition empty_paragraph : paragraph := Paragraph [] 0.

(** A text frame holds one paragraph at least. *)
Record TextFrame := MkTextFrame { tf_first : paragraph; tf_more : list paragraph }.

Definition paragraphs (tf : TextFrame) : list paragraph :=
  tf_first tf :: tf_more tf.

Definition empty_text_frame : TextFrame := MkTextFrame empty_paragraph [].

(** [tf.clear()]: all paragraphs but the first are removed and the
    first loses its content, keeping its properties. *)
Definition clear (tf : TextFrame) : TextFrame :=
  MkTextFrame (Paragraph [] (p_level (tf_first tf))) [].

(** *** Text as the library stores it

    A text given to a paragraph is cut at each line feed and vertical
    tab into runs, with a line break between two runs; a run escapes
    its control characters before the XML layer takes it, and the XML
    layer refuses a run with a character it cannot hold. *)

(** The characters the XML layer holds: all but the surrogates and the
    non-characters U+FFFE and U+FFFF. *)
Definition xml_char (c : codepoint) : bool :=
  ((c <? 55296) || (57344 <=? c) && (c <=? 65533) ||
   (65536 <=? c) && (c <=? 1114111))%N.

Definition storable (s : str) : bool := forallb xml_char s.

Definition is_break (c : codepoint) : bool := ((c =? 10) || (c =? 11))%N.

(** The runs of a text: the piece before the first break and the
    pieces after it. *)
Fixpoint runs (s : str) : str * list str :=
  match s with
  | [] => ([], [])
  | c :: s' =>
      let '(r, rs) := runs s' in
      if is_break c then ([], r :: rs) else (c :: r, rs)
  end.

(** The control characters a run escapes, U+0000 to U+0008 and U+000B
    to U+001F, each written as an underscore, x, four hexadecimal
    digits and an underscore. *)
Definition is_ctrl (c : codepoint) : bool :=
  ((c <=? 8) || (11 <=? c) && (c <=? 31))%N.

Definition hex_digit (d : N) : codepoint :=
  (if d <? 10 then 48 + d else 55 + d)%N.

Definition escape_ctrl_char (c : codepoint) : str :=
  lit "_x00" ++ [hex_digit (c / 16); hex_digit (c mod 16)] ++ lit "_".

Definition escape_ctrl_chars (r : str) : str :=
  flat_map (fun c => if is_ctrl c then escape_ctrl_char c else [c]) r.

(** The text of a paragraph as [paragraph.text] reads it back: the
    runs, escaped, with a vertical tab for each line break. *)
Definition stored_text (s : str) : str :=
  let '(r, rs) := runs s in
  escape_ctrl_chars r ++ flat_map (fun x => 11%N :: escape_ctrl_chars x) rs.

(** A character a one-line text keeps as it is: one the XML layer
    holds, that is neither a break nor escaped. *)
Definition plain_char (c : codepoint) : bool :=
  xml_char c && negb (is_break c) && negb (is_ctrl c).

Definition plain (s : str) : bool := forallb plain_char s.

(** The first run the XML layer refuses, if any. *)
Definition first_refused (s : str) : option str :=
  List.find (fun r => negb (storable r)) (let '(r, rs) := runs s in r :: rs).

(** The exception of [re.split] given something else than a str or
    bytes, as Python 3.11 and later word it. *)
Definition not_a_string (v : pyval) : exn :=
  Exn TypeError
      (lit "expected string or bytes-like object, got '" ++ type_name v ++
       lit "'").

(** The paragraphs of a text: one per line, all at level 0. *)
Definition frame_of_lines (s : str) : TextFrame :=
  let '(l, ls) := split_lines s in
  MkTextFrame (Paragraph (stored_text l) 0)
              (List.map (fun x => Paragraph (stored_text x) 0) ls).

(** [tf.text = v]: the content is replaced by fresh paragraphs, one per
    line of [v].  A value that is not a str has no [split]; a str with
    a run the XML layer refuses raises [refuse] of that run, the
    exception of the XML layer. *)
Definition set_text (refuse : str -> exn) (tf : TextFrame) (v : pyval)
  : result TextFrame :=
  match v with
  | PyStr s =>
      match first_refused s with
      | Some r => Raise (refuse (escape_ctrl_chars r))
      | None => Ok (frame_of_lines s)
      end
  | _ => Raise (no_attribute v "split")
  end.

(** [tf.add_paragraph()]: a new empty paragraph at the end; the handle
    returned is its position among [paragraphs]. *)
Definition add_paragraph (tf : TextFrame) : TextFrame * nat :=
  (MkTextFrame (tf_first tf) (tf_more tf ++ [empty_paragraph]),
   length (paragraphs tf)).

Definition alter_paragraph (f : paragraph -> paragraph) (p : nat)
    (tf : TextFrame) : TextFrame :=
  match p with
  | O => MkTextFrame (f (tf_first tf)) (tf_more tf)
  | S q => MkTextFrame (tf_first tf) (alter f q (tf_more tf))
  end.

(** [p.text = v]: the paragraph keeps its level and gets the runs of
    [v]; the same refusals as above, but a value that is not a str is
    refused by [re.split]. *)
Definition set_paragraph_text (refuse : str -> exn) (tf : TextFrame)
    (p : nat) (v : pyval) : result TextFrame :=
  match v with
  | PyStr s =>
      match first_refused s with
      | Some r => Raise (refuse (escape_ctrl_chars r))
      | None =>
          Ok (alter_paragraph (fun x => Paragraph (stored_text s) (p_level x))
                p tf)
      end
  | _ => Raise (not_a_string v)
  end.

(** [p.level = n] *)
Definition set_paragraph_level (tf : TextFrame) (p : nat) (n : nat)
  : TextFrame :=
  alter_paragraph (fun x => Paragraph (p_text x) n) p tf.

(** [PP_PLACEHOLDER] *)
Inductive ph_type :=
| BITMAP | BODY | CENTER_TITLE | CHART | DATE | FOOTER | HEADER
| MEDIA_CLIP | OBJECT | ORG_CHART | PICTURE | SLIDE_IMAGE | SLIDE_NUMBER
| SUBTITLE | TABLE | TITLE | VERTICAL_BODY | VERTICAL_OBJECT
| VERTICAL_TITLE.

(** A placeholder of a layout, and a layout: its display name and its
    placeholders in document order. *)
Record layout_placeholder := LayoutPlaceholder { lph_idx : nat; lph_type : ph_type }.

Record slide_layout := SlideLayout { name : str; layout_placeholders : list layout_placeholder }.

(** A placeholder shape of a slide: [placeholder_format.idx],
    [placeholder_format.type] and [text_frame]. *)
Record placeholder := Placeholder { idx : nat; type : ph_type; text_frame : TextFrame }.

(** A slide carries the layout it was made from and its placeholders as
    [slide.placeholders] yields them: sorted by idx. *)
Record slide := Slide { slide_layout_of : slide_layout; placeholders : list placeholder }.

Record presentation := Prs { slide_layouts : list slide_layout; slides : list slide }.

(** [prs.slide_layouts[i]] for [i >= 0] *)
Definition slide_layouts_getitem (prs : presentation) (i : nat)
  : result slide_layout :=
  match slide_layouts prs !! i with
  | Some layout => Ok layout
  | None => Raise (Exn IndexError (lit "slide layout index out of range"))
  end.

(** Date, footer and slide-number placeholders of a layout are not
    copied to a slide made from it. *)
Definition cloneable (ph : layout_placeholder) : bool :=
  match lph_type ph with
  | DATE | FOOTER | SLIDE_NUMBER => false
  | _ => true
  end.

Definition clone_placeholder (ph : layout_placeholder) : placeholder :=
  Placeholder (lph_idx ph) (lph_type ph) empty_text_frame.

(** [slide.placeholders] yields the placeholder shapes sorted by idx,
    those of equal idx in document order. *)
Fixpoint insert_by_idx (ph : placeholder) (l : list placeholder)
  : list placeholder :=
  match l with
  | [] => [ph]
  | x :: l' =>
      if (idx ph <=? idx x)%nat then ph :: l else x :: insert_by_idx ph l'
  end.

Definition sort_by_idx (l : list placeholder) : list placeholder :=
  List.fold_right insert_by_idx [] l.

(** The slide [add_slide] makes: the placeholders cloned from the
    layout, in the order [slide.placeholders] yields them. *)
Definition new_slide (layout : slide_layout) : slide :=
  Slide layout
        (sort_by_idx
           (List.map clone_placeholder
                     (List.filter cloneable (layout_placeholders layout)))).

(** [prs.slides.add_slide(layout)]: the new slide goes last; the handle
    returned is its position in [slides]. *)
Definition add_slide (prs : presentation) (layout : slide_layout)
  : presentation * nat :=
  (Prs (slide_layouts prs) (slides prs ++ [new_slide layout]),
   length (slides prs)).

(** [slide.shapes.title]: the first placeholder whose idx is 0, if any
    (the first in document order, which is also the first in
    [placeholders], where those of equal idx keep their order); the
    handle is its position in [placeholders]. *)
Definition shapes_title (s : slide) : option nat :=
  fst <$> list_find (fun ph => idx ph = 0%nat) (placeholders s).

(** [shape.text = v] is [shape.text_frame.text = v]. *)
Definition shape_set_text (refuse : str -> exn) (ph : placeholder) (v : pyval)
  : result placeholder :=
  rbind (set_text refuse (text_frame ph) v)
        (fun tf => Ok (Placeholder (idx ph) (type ph) tf)).

(** An in-memory binary stream: [io.BytesIO]. *)
Record BytesIO := MkBytesIO { getvalue : list Byte.byte; tell : nat }.

Definition new_BytesIO : BytesIO := MkBytesIO [] 0.

Definition write (b : BytesIO) (data : list Byte.byte) : BytesIO :=
  MkBytesIO (take (tell b) (getvalue b) ++ data ++
             drop (tell b + length data) (getvalue b))
            (tell b + length data).

Definition seek (b : BytesIO) (pos : nat) : BytesIO :=
  MkBytesIO (getvalue b) pos.

End Pptx.

(** ** Effects: what the script does to the outside world *)

Import Py Pptx.

(** The file object [st.file_uploader] hands to the script. *)
Record UploadedFile := MkUploadedFile { upload_name : str; upload_bytes : list Byte.byte }.

(** One event per call that leaves the script: the openai client, the
    pptx reader and writer, and the Streamlit elements it displays. *)
Inductive event :=
| OpenaiSetApiKey (api_key : str)
| OpenaiChatCompletionsCreate (model : str) (messages : list (str * str))
| PptxPresentation (template_file : UploadedFile)
| PptxSave (prs : presentation)
| StError (body : str)
| StWarning (body : str)
| StSpinner (text : str)
| StSuccess (body : str)
| StDownloadButton (label : str) (data : BytesIO) (file_name mime : str)
                   (use_container_width : bool).

(** A computation returns or raises, and leaves the events it emitted
    up to that point. *)
Definition io (A : Type) : Type := result A * list event.

Definition ret {A} (a : A) : io A := (Ok a, []).

Definition bind {A B} (m : io A) (k : A -> io B) : io B :=
  match m with
  | (Ok a, t) => let '(r, t') := k a in (r, t ++ t')
  | (Raise e, t) => (Raise e, t)
  end.

Definition emit (ev : event) : io unit := (Ok tt, [ev]).

(** A computation without effect, and a library call that is one. *)
Definition lift {A} (r : result A) : io A := (r, []).

Definition call {A} (ev : event) (r : result A) : io A := (r, [ev]).

(** [try: body  except Exception as e: handler(e)] *)
Definition try_except {A} (body : io A) (handler : exn -> io A) : io A :=
  match body with
  | (Ok a, t) => (Ok a, t)
  | (Raise e, t) => let '(r, t') := handler e in (r, t ++ t')
  end.

Notation "x <- m ;; k" := (bind m (fun x => k))
  (at level 100, m at next level, right associativity).
Notation "m ;;; k" := (bind m (fun _ => k))
  (at level 100, right associativity).

Definition trace {A} (m : io A) : list event := snd m.
Definition outcome {A} (m : io A) : result A := fst m.

(** ** A small world to run the script in *)

Module Demo.

(** A parser that knows three texts, surrounded by any white space. *)
Definition json_loads (s : str) : result pyval :=
  if str_eqb (strip s) (lit "[]") then Ok (PyList [])
  else if str_eqb (strip s) (lit "[{}]") then Ok (PyList [PyDict []])
  else if str_eqb (strip s) (lit "[1]") then Ok (PyList [PyInt 1])
  else Raise (Exn OtherError (lit "Expecting value: line 1 column 1 (char 0)")).

(** A service that answers every request with the same reply, unless
    the key is empty. *)
Definition chat (reply : str) (api_key model : str)
    (messages : list (str * str)) : result (option str) :=
  match api_key with
  | [] => Raise (Exn OtherError (lit "Incorrect API key provided"))
  | _ => Ok (Some reply)
  end.

Definition fenced_reply : str :=
  lit "```json" ++ newline ++ lit "[{}]" ++ newline ++ lit "```".

Definition title_slide : slide_layout :=
  SlideLayout (lit "Title Slide")
    [LayoutPlaceholder 0 CENTER_TITLE; LayoutPlaceholder 1 SUBTITLE;
     LayoutPlaceholder 10 DATE].

Definition title_and_content : slide_layout :=
  SlideLayout (lit "Title and Content")
    [LayoutPlaceholder 0 TITLE; LayoutPlaceholder 1 OBJECT;
     LayoutPlaceholder 10 DATE; LayoutPlaceholder 11 FOOTER;
     LayoutPlaceholder 12 SLIDE_NUMBER].

Definition blank : slide_layout :=
  SlideLayout (lit "Blank") [LayoutPlaceholder 10 DATE].

Definition section_header : slide_layout :=
  SlideLayout (lit "Section Header")
    [LayoutPlaceholder 0 TITLE; LayoutPlaceholder 1 BODY].

Definition deck : presentation :=
  Prs [title_slide; title_and_content; blank] [].

Definition plain_deck : presentation :=
  Prs [blank; section_header] [].

Definition template : UploadedFile :=
  MkUploadedFile (lit "template.pptx") [Byte.x50; Byte.x4b].

(** A reader that refuses an empty file and a writer that always
    succeeds. *)
Definition open (f : UploadedFile) : result presentation :=
  match upload_bytes f with
  | [] => Raise (Exn OtherError (lit "Package not found"))
  | _ => Ok deck
  end.

Definition bytes (prs : presentation) : result (list Byte.byte) :=
  Ok (Byte.x50 :: Byte.x4b :: repeat Byte.x00 (length (slides prs))).

(** The refusal of the XML layer for a non-character. *)
Definition refusal (r : str) : exn :=
  Exn ValueError
      (lit "All strings must be XML compatible: Unicode or ASCII, no NULL bytes or control characters").

Definition abc : pyval :=
  PyList [PyStr (lit "A"); PyStr (lit "B"); PyStr (lit "C")].

Definition record_abc : pyval :=
  PyDict [(lit "title", PyStr (lit "Widgets")); (lit "content", abc)].

Definition record_bare : pyval := PyDict [].

Definition record_text : pyval :=
  PyDict [(lit "title", PyStr (lit "Notes")); (lit "content", PyStr (lit "none"))].

End Demo.

(** More of the small world: a service without reply content, a parser
    that knows an empty object and null, a layout with two bodies, a
    layout stored out of idx order and records whose content goes wrong. *)
Module Demo2.

Definition chat_none (api_key model : str) (messages : list (str * str))
  : result (option str) := Ok None.

Definition json_loads (s : str) : result pyval :=
  if str_eqb (strip s) (lit "{}") then Ok (PyDict [])
  else if str_eqb (strip s) (lit "null") then Ok PyNone
  else Raise (Exn OtherError (lit "Expecting value: line 1 column 1 (char 0)")).

Definition two_content : slide_layout :=
  SlideLayout (lit "Two Content")
    [LayoutPlaceholder 0 TITLE; LayoutPlaceholder 1 OBJECT;
     LayoutPlaceholder 2 OBJECT; LayoutPlaceholder 10 DATE].

Definition single_layout_deck : presentation := Prs [Demo.blank] [].

(** A layout that stores its placeholders as idx 2, 0, 1. *)
Definition shuffled : slide_layout :=
  SlideLayout (lit "Title and Content")
    [LayoutPlaceholder 2 PICTURE; LayoutPlaceholder 0 TITLE;
     LayoutPlaceholder 1 BODY].

Definition shuffled_deck : presentation := Prs [Demo.blank; shuffled] [].


Definition record_mixed : pyval :=
  PyDict [(lit "title", PyStr (lit "Figures"));
          (lit "content", PyList [PyStr (lit "A"); PyInt 5; PyStr (lit "C")])].

(** A record with a bullet the XML layer refuses (it ends in U+FFFE). *)
Definition record_refused : pyval :=
  PyDict [(lit "title", PyStr (lit "Figures"));
          (lit "content", PyList [PyStr (lit "A"); PyStr [66; 65534]%N])].

End Demo2.

(** ** The program *)

Section App.

(** [openai.chat.completions.create(model, messages)] under the key set
    before it, followed by [.choices[0].message.content]: the reply text
    (which the client types as optional) or the exception of the call. *)
Variable openai_chat : str -> str -> list (str * str) -> result (option str).

(** [json.loads] *)
Variable json_loads : str -> result pyval.

(** [Presentation(template_file)]: the document read from the upload. *)
Variable Presentation : UploadedFile -> result presentation.

(** The bytes [prs.save] writes for a document. *)
Variable pptx_bytes : presentation -> result (list Byte.byte).

(** The exception the XML layer of python-pptx raises for a run of text
    it cannot hold. *)
Variable xml_refusal : str -> exn.

(** *** [get_slide_structure_from_llm] *)

Definition indent : str := lit "        ".

Definition prompt_of (text guidance : str) : str :=
  newline ++
  indent ++ lit "Analyze the text below and structure it into presentation slides." ++ newline ++
  indent ++ lit "The user's guidance is: " ++ dquote ++
    (match guidance with
     | [] => lit "A standard informative presentation"
     | _ => guidance
     end) ++ dquote ++ lit "." ++ newline ++
  newline ++
  indent ++ lit "Return a valid JSON array of objects. Each object must have a " ++
    dquote ++ lit "title" ++ dquote ++ lit " key and a " ++
    dquote ++ lit "content" ++ dquote ++ lit " key." ++ newline ++
  indent ++ lit "The " ++ dquote ++ lit "content" ++ dquote ++
    lit " should be a list of strings (bullet points)." ++ newline ++
  indent ++ lit "Do not create a title slide or a thank you slide." ++ newline ++
  newline ++
  indent ++ lit "TEXT:" ++ newline ++
  indent ++ lit "---" ++ newline ++
  indent ++ text ++ newline ++
  indent ++ lit "---" ++ newline ++
  indent.

Definition system_message : str :=
  lit "You are an expert at structuring text into presentation slides. You only respond with the requested JSON.".

Definition messages_of (prompt : str) : list (str * str) :=
  [(lit "system", system_message); (lit "user", prompt)].

Definition model_name : str := lit "gpt-3.5-turbo".

Definition fence : str := lit "```json".

Definition closing_fence : str := lit "```".

(** Lines 42-43: the text handed to the parser. *)
Definition unwrap_fence (raw_content : option str) : result str :=
  match raw_content with
  | None => Raise (no_attribute PyNone "strip")
  | Some raw =>
      if startswith (strip raw) fence
      then Ok (slice (strip raw) 7 (-3))
      else Ok raw
  end.

(** The [try] block, lines 15-46. *)
Definition get_slide_structure_from_llm_try (text guidance api_key : str)
  : io pyval :=
  emit (OpenaiSetApiKey api_key) ;;;
  let prompt := prompt_of text guidance in
  raw_content <- call (OpenaiChatCompletionsCreate model_name (messages_of prompt))
                      (openai_chat api_key model_name (messages_of prompt)) ;;
  raw_content <- lift (unwrap_fence raw_content) ;;
  slide_data <- lift (json_loads raw_content) ;;
  ret slide_data.

Definition llm_error_message (e : exn) : str :=
  lit "Error calling LLM: " ++ exn_str e ++
  lit ". Check your API key and the input text.".

Definition get_slide_structure_from_llm (text guidance api_key : str)
  : io pyval :=
  try_except (get_slide_structure_from_llm_try text guidance api_key)
             (fun e => emit (StError (llm_error_message e)) ;;; ret PyNone).

(** *** [create_presentation] *)

Definition is_title_and_content (layout : slide_layout) : bool :=
  contains (lit "Title") (name layout) && contains (lit "Content") (name layout).

(** Lines 65-70: the loop leaves at the first layout that passes. *)
Fixpoint find_title_and_content (layouts : list slide_layout)
  : option slide_layout :=
  match layouts with
  | [] => None
  | layout :: rest =>
      if is_title_and_content layout then Some layout
      else find_title_and_content rest
  end.

(** Lines 65-74. *)
Definition select_layout (prs : presentation) : result slide_layout :=
  match find_title_and_content (slide_layouts prs) with
  | Some layout => Ok layout
  | None => slide_layouts_getitem prs 1
  end.

(** Lines 81-82. *)
Definition set_title (slide_data : pyval) (s : slide) : result slide :=
  match shapes_title s with
  | Some title =>
      rbind (get slide_data (lit "title") (PyStr []))
            (fun v =>
      rbind (update_at title (fun ph => shape_set_text xml_refusal ph v)
                       (placeholders s))
            (fun phs => Ok (Slide (slide_layout_of s) phs)))
  | None => Ok s
  end.

(** Lines 85-89: the handle of the first placeholder with idx >= 1. *)
Definition find_body_shape (s : slide) : option nat :=
  fst <$> list_find (fun ph => (1 <= idx ph)%nat) (placeholders s).

(** Lines 98-101. *)
Fixpoint add_points (points : list pyval) (tf : TextFrame) : result TextFrame :=
  match points with
  | [] => Ok tf
  | point :: rest =>
      let '(tf, p) := add_paragraph tf in
      rbind (set_paragraph_text xml_refusal tf p point)
            (fun tf => add_points rest (set_paragraph_level tf p 1))
  end.

(** Lines 92-101 on the text frame of the body shape. *)
Definition fill_text_frame (slide_data : pyval) (tf : TextFrame)
  : result TextFrame :=
  let tf := clear tf in
  rbind (get slide_data (lit "content") (PyList []))
        (fun content_points =>
  match content_points with
  | PyList (first :: rest) =>
      rbind (set_text xml_refusal tf first) (add_points rest)
  | _ => Ok tf
  end).

(** Lines 85-101. *)
Definition set_body (slide_data : pyval) (s : slide) : result slide :=
  match find_body_shape s with
  | Some body_shape =>
      rbind (update_at body_shape
               (fun ph => rbind (fill_text_frame slide_data (text_frame ph))
                                (fun tf => Ok (Placeholder (idx ph) (type ph) tf)))
               (placeholders s))
            (fun phs => Ok (Slide (slide_layout_of s) phs))
  | None => Ok s
  end.

(** Lines 81-101: what one record does to its slide. *)
Definition fill_slide (slide_data : pyval) (s : slide) : result slide :=
  rbind (set_title slide_data s) (set_body slide_data).

(** Lines 78-101: one turn of the slide loop. *)
Definition slide_step (layout : slide_layout) (prs : presentation)
    (slide_data : pyval) : result presentation :=
  let '(prs, slide) := add_slide prs layout in
  rbind (update_at slide (fill_slide slide_data) (slides prs))
        (fun sl => Ok (Prs (slide_layouts prs) sl)).

(** Lines 77-101. *)
Definition build_slides (layout : slide_layout) (structured_slides : pyval)
    (prs : presentation) : result presentation :=
  rbind (iter structured_slides)
        (fun records => for_each (slide_step layout) records prs).

(** The [try] block, lines 60-107. *)
Definition create_presentation_try (structured_slides : pyval)
    (template_file : UploadedFile) : io BytesIO :=
  prs <- call (PptxPresentation template_file) (Presentation template_file) ;;
  title_and_content_layout <- lift (select_layout prs) ;;
  prs <- lift (build_slides title_and_content_layout structured_slides prs) ;;
  let buffer := new_BytesIO in
  data <- call (PptxSave prs) (pptx_bytes prs) ;;
  let buffer := write buffer data in
  let buffer := seek buffer 0 in
  ret buffer.

Definition deck_error_message (e : exn) : str :=
  lit "Error during presentation creation: " ++ exn_str e ++
  lit ". Please check your template file.".

(** The function returns the buffer, or [None] after an exception. *)
Definition create_presentation (structured_slides : pyval)
    (template_file : UploadedFile) : io (option BytesIO) :=
  try_except (buffer <- create_presentation_try structured_slides template_file ;;
              ret (Some buffer))
             (fun e => emit (StError (deck_error_message e)) ;;; ret None).

(** *** The handler of the generate button, lines 146-173 *)

Definition success_message : str :=
  [240; 376; 381; 8240]%N ++ lit " Your presentation is ready!".

Definition download_label : str :=
  [240; 376; 8220; 165]%N ++ lit " Download Presentation".

Definition download_mime : str :=
  lit "application/vnd.openxmlformats-officedocument.presentationml.presentation".

Definition spinner_text : str :=
  lit "Analyzing text and building your presentation... This can take a minute.".

Definition generate_button_handler (generate_button : bool)
    (input_text guidance_text api_key : str)
    (uploaded_template : option UploadedFile) : io unit :=
  if generate_button then
    if negb (truthy (PyStr input_text)) then
      emit (StWarning (lit "Please paste some text to begin."))
    else if negb (truthy (PyStr api_key)) then
      emit (StWarning (lit "Please enter your OpenAI API key."))
    else
      match uploaded_template with
      | None => emit (StWarning (lit "Please upload a PowerPoint template."))
      | Some template =>
          emit (StSpinner spinner_text) ;;;
          structured_slides <- get_slide_structure_from_llm input_text guidance_text api_key ;;
          if truthy structured_slides then
            presentation_buffer <- create_presentation structured_slides template ;;
            match presentation_buffer with
            | Some buffer =>
                emit (StSuccess success_message) ;;;
                emit (StDownloadButton download_label buffer
                        (lit "generated_presentation.pptx") download_mime true)
            | None => ret tt
            end
          else ret tt
      end
  else ret tt.

(** A slide record the loop body accepts whatever the slide: a dict
    whose title, when present, is a str the library can store, and
    whose content, when it is a list, is a list of such strs. *)
Definition is_str (v : pyval) : bool :=
  match v with PyStr _ => true | _ => false end.

Definition is_text (v : pyval) : bool :=
  match v with PyStr s => storable s | _ => false end.

Definition is_slide_record (v : pyval) : bool :=
  match v with
  | PyDict d =>
      is_text (default (PyStr []) (dict_lookup d (lit "title"))) &&
      match default (PyList []) (dict_lookup d (lit "content")) with
      | PyList items => forallb is_text items
      | _ => true
      end
  | _ => false
  end.

(** Events by which a deck is built, announced or offered. *)
Definition is_pptx_event (ev : event) : bool :=
  match ev with PptxPresentation _ | PptxSave _ => true | _ => false end.

Definition is_llm_event (ev : event) : bool :=
  match ev with
  | OpenaiSetApiKey _ | OpenaiChatCompletionsCreate _ _ => true
  | _ => false
  end.

Definition is_success_or_download (ev : event) : bool :=
  match ev with StSuccess _ | StDownloadButton _ _ _ _ _ => true | _ => false end.

Definition is_error (ev : event) : bool :=
  match ev with StError _ => true | _ => false end.

(** The two calls of the outline request. *)
Definition llm_events (text guidance api_key : str) : list event :=
  [OpenaiSetApiKey api_key;
   OpenaiChatCompletionsCreate model_name (messages_of (prompt_of text guidance))].

(** The document the deck builder has in hand before it saves. *)
Definition built (structured_slides : pyval) (template_file : UploadedFile)
  : result presentation :=
  rbind (Presentation template_file)
        (fun prs => rbind (select_layout prs)
                          (fun layout => build_slides layout structured_slides prs)).

(** The stream returned for a saved document, rewound. *)
Definition buffer_of (prs : presentation) : result BytesIO :=
  rbind (pptx_bytes prs) (fun data => Ok (MkBytesIO data 0)).

(** ** Facts about the string operations *)

Section StrFacts.
Implicit Types s p sub body : str.

Lemma startswith_app p s : startswith (p ++ s) p = true.
Proof.
  induction p as [|c p IH]; simpl; [done|].
  by rewrite N.eqb_refl.
Qed.

Lemma startswith_inv s p : startswith s p = true → ∃ t, s = p ++ t.
Proof.
  revert s. induction p as [|c p IH]; intros s H.
  - by exists s.
  - destruct s as [|d s]; [done|]. simpl in H.
    apply andb_true_iff in H as [Hc Hp]. apply N.eqb_eq in Hc as ->.
    destruct (IH _ Hp) as [t ->]. by exists t.
Qed.

Lemma contains_occurs sub s : contains sub s = true ↔ occurs sub s.
Proof.
  induction s as [|c s IH]; simpl.
  - rewrite orb_false_r. split.
    + intros [t Ht]%startswith_inv. exists [], t. done.
    + intros (pre & post & H). symmetry in H.
      apply app_eq_nil in H as [_ [-> _]%app_eq_nil]. done.
  - rewrite orb_true_iff, IH. split.
    + intros [[t Ht]%startswith_inv | (pre & post & ->)].
      * exists [], t. done.
      * by exists (c :: pre), post.
    + intros ([|c' pre] & post & H); simpl in H.
      * left. rewrite H. apply startswith_app.
      * right. injection H as _ ->. by exists pre, post.
Qed.

Lemma not_contains_occurs sub s : contains sub s = false ↔ ¬ occurs sub s.
Proof.
  rewrite <- contains_occurs. destruct (contains sub s); split; congruence.
Qed.

Lemma lstrip_nonspace c s : isspace c = false → lstrip (c :: s) = c :: s.
Proof. intros H. simpl. by rewrite H. Qed.

(** [strip] leaves alone a text that neither begins nor ends with
    white space. *)
Lemma strip_ends a b s :
  isspace a = false → isspace b = false →
  strip (a :: s ++ [b]) = a :: s ++ [b].
Proof.
  intros Ha Hb. unfold strip, rstrip.
  rewrite (lstrip_nonspace _ _ Ha).
  change (a :: s ++ [b]) with ((a :: s) ++ [b]).
  rewrite rev_unit, (lstrip_nonspace _ _ Hb).
  by rewrite <- rev_unit, rev_involutive.
Qed.

(** The slice [[7:-3]] of a text of seven characters or more: drop the
    last three, then the first seven. *)
Lemma slice_7_m3 s :
  (7 ≤ length s)%nat → slice s 7 (-3) = drop 7 (take (length s - 3) s).
Proof.
  intros Hlen. unfold slice, slice_bound. simpl negb.
  replace (Z.min 7 (Z.of_nat (length s))) with 7 by lia.
  replace (-3 <? 0) with true by done. replace (7 <? 0) with false by done.
  cbv iota. change (Z.to_nat 7) with 7%nat.
  rewrite take_drop_commute.
  destruct (decide (10 ≤ length s)%nat) as [Hbig|Hsmall].
  - f_equal. f_equal. lia.
  - rewrite !drop_ge; [done| |]; rewrite length_take; lia.
Qed.

Lemma startswith_length s p : startswith s p = true → (length p ≤ length s)%nat.
Proof.
  intros [t ->]%startswith_inv. rewrite length_app. lia.
Qed.

End StrFacts.

(** ** Facts about handles and the slide loop *)

Section ModelFacts.

Lemma update_at_last {A} (f : A → result A) (l : list A) (x : A) :
  update_at (length l) f (l ++ [x]) = rbind (f x) (fun y => Ok (l ++ [y])).
Proof.
  unfold update_at. rewrite list_lookup_middle by done.
  destruct (f x) as [y|e]; simpl; [|done].
  f_equal. replace (length l) with (length l + 0)%nat by lia.
  by rewrite insert_app_r.
Qed.

Lemma update_at_lookup {A} (f : A → result A) (l : list A) i x :
  l !! i = Some x →
  update_at i f l = rbind (f x) (fun y => Ok (<[i := y]> l)).
Proof. intros H. unfold update_at. by rewrite H. Qed.

(** One turn of the loop appends the filled slide, or raises what
    filling it raises. *)
Lemma slide_step_unfold layout prs slide_data :
  slide_step layout prs slide_data =
  rbind (fill_slide slide_data (new_slide layout))
        (fun s => Ok (Prs (slide_layouts prs) (slides prs ++ [s]))).
Proof.
  unfold slide_step, add_slide. cbn [slides slide_layouts].
  rewrite update_at_last. by destruct (fill_slide _ _).
Qed.


(** The loop returns when every record fills its slide. *)
Lemma slide_loop_ok layout records : ∀ prs,
  Forall (fun r => ∃ s, fill_slide r (new_slide layout) = Ok s) records →
  ∃ new,
    Forall2 (fun r s => fill_slide r (new_slide layout) = Ok s) records new ∧
    for_each (slide_step layout) records prs =
      Ok (Prs (slide_layouts prs) (slides prs ++ new)).
Proof.
  induction records as [|r records IH]; intros prs Hall.
  - exists []. split; [constructor|]. simpl.
    rewrite app_nil_r. by destruct prs.
  - inversion Hall as [|? ? [s Hs] Hrest]; subst.
    destruct (IH (Prs (slide_layouts prs) (slides prs ++ [s])) Hrest)
      as (new & Hnew & Hloop).
    exists (s :: new). split; [by constructor|].
    simpl. rewrite slide_step_unfold, Hs. simpl. rewrite Hloop.
    cbn [slide_layouts slides]. by rewrite <- app_assoc.
Qed.

(** A handle found by a test on [idx] is found again after the text
    frame behind any handle has changed. *)
Lemma list_find_idx_insert (P : nat → Prop) `{∀ n, Decision (P n)}
    (phs : list placeholder) i ph tf :
  phs !! i = Some ph →
  fst <$> list_find (fun x => P (idx x)) (<[i := Placeholder (idx ph) (type ph) tf]> phs)
  = fst <$> list_find (fun x => P (idx x)) phs.
Proof.
  revert i. induction phs as [|x phs IH]; intros [|i] Hi; try done; simpl in *.
  - injection Hi as ->. by destruct (decide (P (idx ph))).
  - destruct (decide (P (idx x))); [done|].
    specialize (IH i Hi).
    destruct (list_find _ (<[i:=_]> phs)) as [[? ?]|],
             (list_find _ phs) as [[? ?]|]; simpl in *; congruence.
Qed.

End ModelFacts.

Section SlideFacts.

Lemma runs_storable s :
  storable s = true →
  Forall (fun r => storable r = true) (fst (runs s) :: snd (runs s)).
Proof.
  induction s as [|c s IH]; simpl; [by repeat constructor|].
  intros [Hc Hs]%andb_true_iff. specialize (IH Hs).
  destruct (runs s) as [r rs]. simpl in IH. inversion IH; subst.
  destruct (is_break c); simpl.
  - by repeat constructor.
  - constructor; [|done]. simpl. by rewrite Hc.
Qed.

(** A text without surrogate or non-character is stored. *)
Lemma first_refused_none s : storable s = true → first_refused s = None.
Proof.
  intros H%runs_storable. unfold first_refused.
  destruct (runs s) as [r rs]. simpl in H.
  induction H as [|x l Hx _ IH]; simpl; [done|]. by rewrite Hx.
Qed.

Lemma storable_runs s :
  storable s = forallb storable (fst (runs s) :: snd (runs s)).
Proof.
  induction s as [|c s IH]; [done|]. cbn [storable forallb runs].
  fold (storable s). rewrite IH. destruct (runs s) as [r rs].
  cbn [fst snd forallb]. destruct (is_break c) eqn:Hc; cbn [fst snd forallb].
  - assert (xml_char c = true) as ->; [|done].
    unfold is_break in Hc. apply orb_true_iff in Hc as [->%N.eqb_eq| ->%N.eqb_eq];
      done.
  - cbn [storable forallb]. by rewrite andb_assoc.
Qed.

(** A text with a surrogate or a non-character has a refused run. *)
Lemma first_refused_some s :
  storable s = false → ∃ r, first_refused s = Some r.
Proof.
  rewrite storable_runs. unfold first_refused.
  destruct (runs s) as [r rs]. cbn [fst snd].
  generalize (r :: rs). intros l. induction l as [|x l IH]; simpl; [done|].
  destruct (storable x); simpl; [exact IH|eauto].
Qed.

Lemma set_text_storable tf t :
  storable t = true → set_text xml_refusal tf (PyStr t) = Ok (frame_of_lines t).
Proof. intros H. simpl. by rewrite (first_refused_none _ H). Qed.

Lemma shapes_title_lookup s title :
  shapes_title s = Some title →
  ∃ ph, placeholders s !! title = Some ph ∧ idx ph = 0%nat.
Proof.
  unfold shapes_title. intros H.
  destruct (list_find _ _) as [[i ph]|] eqn:Hfind; [|done].
  injection H as <-. apply list_find_Some in Hfind as (Hi & Hidx & _). eauto.
Qed.

Lemma find_body_shape_lookup s body :
  find_body_shape s = Some body →
  ∃ ph, placeholders s !! body = Some ph ∧ (1 ≤ idx ph)%nat.
Proof.
  unfold find_body_shape. intros H.
  destruct (list_find _ _) as [[i ph]|] eqn:Hfind; [|done].
  injection H as <-. apply list_find_Some in Hfind as (Hi & Hidx & _). eauto.
Qed.

(** Setting a str as title replaces the paragraphs of the title shape. *)
Lemma set_title_str slide_data s t title ph :
  get slide_data (lit "title") (PyStr []) = Ok (PyStr t) →
  storable t = true →
  shapes_title s = Some title → placeholders s !! title = Some ph →
  set_title slide_data s =
  Ok (Slide (slide_layout_of s)
            (<[title := Placeholder (idx ph) (type ph) (frame_of_lines t)]>
               (placeholders s))).
Proof.
  intros Hget Hst Ht Hph. unfold set_title. rewrite Ht, Hget. cbn [rbind].
  rewrite (update_at_lookup _ _ _ _ Hph). unfold shape_set_text.
  by rewrite (set_text_storable _ _ Hst).
Qed.

(** The title step keeps the layout, the body handle and the shape
    behind it. *)
Lemma set_title_inv slide_data s s1 :
  set_title slide_data s = Ok s1 →
  slide_layout_of s1 = slide_layout_of s ∧
  find_body_shape s1 = find_body_shape s ∧
  ∀ body, find_body_shape s = Some body →
          placeholders s1 !! body = placeholders s !! body.
Proof.
  unfold set_title. destruct (shapes_title s) as [title|] eqn:Ht.
  - destruct (shapes_title_lookup _ _ Ht) as (ph & Hph & Hidx).
    destruct (get _ _ _) as [v|e]; [|done]. simpl.
    rewrite (update_at_lookup _ _ _ _ Hph). unfold shape_set_text.
    destruct (set_text _ _ v) as [tf|e]; [|done]. simpl. intros [= <-].
    split; [done|]. split.
    + unfold find_body_shape. cbn [placeholders].
      exact (list_find_idx_insert (fun n => (1 ≤ n)%nat) _ _ _ _ Hph).
    + intros body (ph' & Hph' & Hge)%find_body_shape_lookup.
      cbn [placeholders]. apply list_lookup_insert_ne.
      intros ->. rewrite Hph in Hph'. injection Hph' as <-. lia.
  - intros [= <-]. done.
Qed.

Lemma set_body_unfold slide_data s body ph :
  find_body_shape s = Some body → placeholders s !! body = Some ph →
  set_body slide_data s =
  rbind (fill_text_frame slide_data (text_frame ph))
        (fun tf => Ok (Slide (slide_layout_of s)
                             (<[body := Placeholder (idx ph) (type ph) tf]>
                                (placeholders s)))).
Proof.
  intros Hb Hph. unfold set_body. rewrite Hb.
  rewrite (update_at_lookup _ _ _ _ Hph).
  by destruct (fill_text_frame _ _).
Qed.

(** Each remaining point becomes one more paragraph, at level 1. *)
Lemma add_points_strs rest : ∀ tf,
  Forall (fun x => storable x = true) rest →
  add_points (List.map PyStr rest) tf =
  Ok (MkTextFrame (tf_first tf)
        (tf_more tf ++ List.map (fun x => Paragraph (stored_text x) 1) rest)).
Proof.
  induction rest as [|point rest IH]; intros [p0 more] Hrest; simpl.
  - by rewrite app_nil_r.
  - inversion Hrest as [|? ? Hpoint Hrest']; subst.
    rewrite (first_refused_none _ Hpoint). cbn [rbind].
    rewrite IH by done. cbn [tf_first tf_more]. do 2 f_equal.
    replace (length more) with (length more + 0)%nat by lia.
    rewrite !alter_app_r. simpl. by rewrite <- app_assoc.
Qed.

Lemma fill_text_frame_strs slide_data tf first rest :
  get slide_data (lit "content") (PyList []) =
    Ok (PyList (List.map PyStr (first :: rest))) →
  Forall (fun x => storable x = true) (first :: rest) →
  fill_text_frame slide_data tf =
  Ok (MkTextFrame (tf_first (frame_of_lines first))
        (tf_more (frame_of_lines first) ++
         List.map (fun x => Paragraph (stored_text x) 1) rest)).
Proof.
  intros Hget Hall. inversion Hall as [|? ? Hfirst Hrest]; subst.
  unfold fill_text_frame. rewrite Hget. cbn [rbind List.map].
  rewrite (set_text_storable _ _ Hfirst). cbn [rbind].
  by apply add_points_strs.
Qed.

Lemma fill_text_frame_nothing slide_data tf content_points :
  get slide_data (lit "content") (PyList []) = Ok content_points →
  content_points = PyList [] ∨ is_list content_points = false →
  fill_text_frame slide_data tf = Ok (clear tf).
Proof.
  intros Hget Hc. unfold fill_text_frame. rewrite Hget. simpl.
  destruct Hc as [->|Hc]; [done|]. by destruct content_points.
Qed.

Lemma all_text_items items :
  forallb is_text items = true →
  ∃ ss, items = List.map PyStr ss ∧ Forall (fun x => storable x = true) ss.
Proof.
  induction items as [|v items IH]; simpl.
  - by exists [].
  - intros [Hv (ss & -> & Hss)%IH]%andb_true_iff. destruct v; try done.
    exists (s :: ss). split; [done|]. by constructor.
Qed.

(** A well-formed record fills any slide without raising. *)
Lemma fill_slide_ok slide_data s :
  is_slide_record slide_data = true → ∃ s', fill_slide slide_data s = Ok s'.
Proof.
  destruct slide_data as [| | | | |?|d]; try done. simpl.
  intros [Htitle Hcontent]%andb_true_iff.
  assert (∃ s1, set_title (PyDict d) s = Ok s1) as [s1 Hs1].
  { destruct (shapes_title s) as [title|] eqn:Ht.
    - destruct (shapes_title_lookup _ _ Ht) as (ph & Hph & _).
      destruct (default _ _) as [| | | |t| |] eqn:Hd; try done.
      eexists. eapply set_title_str; [|exact Htitle|done..].
      simpl. by rewrite Hd.
    - exists s. unfold set_title. by rewrite Ht. }
  unfold fill_slide. rewrite Hs1. simpl.
  destruct (find_body_shape s1) as [body|] eqn:Hb.
  - destruct (find_body_shape_lookup _ _ Hb) as (ph & Hph & _).
    rewrite (set_body_unfold _ _ _ _ Hb Hph).
    assert (∃ tf, fill_text_frame (PyDict d) (text_frame ph) = Ok tf)
      as [tf ->]; [|simpl; eauto].
    destruct (default (PyList []) _) as [| | | | |items|] eqn:Hd;
      try (eexists; eapply fill_text_frame_nothing;
           [simpl; by rewrite Hd | by right]).
    destruct (all_text_items _ Hcontent) as ([|first rest] & -> & Hss).
    + eexists. eapply fill_text_frame_nothing; [simpl; by rewrite Hd | by left].
    + eexists. eapply fill_text_frame_strs; [|exact Hss]. simpl. by rewrite Hd.
  - exists s1. unfold set_body. by rewrite Hb.
Qed.

End SlideFacts.

(** ** The two functions as equations *)

Section Equations.

(** The [try] block of the outline request always performs the same
    two calls; its outcome is the reply unwrapped and parsed. *)
Lemma llm_try_eq text guidance api_key :
  get_slide_structure_from_llm_try text guidance api_key =
  (rbind (openai_chat api_key model_name (messages_of (prompt_of text guidance)))
         (fun raw_content => rbind (unwrap_fence raw_content) json_loads),
   llm_events text guidance api_key).
Proof.
  unfold get_slide_structure_from_llm_try, llm_events, bind, emit, call, lift, ret.
  destruct (openai_chat _ _ _) as [raw|e]; simpl; [|done].
  destruct (unwrap_fence raw) as [raw'|e]; simpl; [|done].
  by destruct (json_loads raw').
Qed.

Lemma llm_eq text guidance api_key :
  get_slide_structure_from_llm text guidance api_key =
  match outcome (get_slide_structure_from_llm_try text guidance api_key) with
  | Ok slide_data => (Ok slide_data, llm_events text guidance api_key)
  | Raise e => (Ok PyNone,
                llm_events text guidance api_key ++ [StError (llm_error_message e)])
  end.
Proof.
  unfold get_slide_structure_from_llm. rewrite llm_try_eq.
  unfold try_except, outcome. simpl fst.
  by destruct (rbind _ _).
Qed.

Lemma deck_try_eq structured_slides template_file :
  create_presentation_try structured_slides template_file =
  match built structured_slides template_file with
  | Ok prs => (buffer_of prs, [PptxPresentation template_file; PptxSave prs])
  | Raise e => (Raise e, [PptxPresentation template_file])
  end.
Proof.
  unfold create_presentation_try, built, buffer_of, bind, call, lift, ret.
  destruct (Presentation template_file) as [prs0|e]; simpl; [|done].
  destruct (select_layout prs0) as [layout|e]; simpl; [|done].
  destruct (build_slides layout structured_slides prs0) as [prs|e]; simpl; [|done].
  destruct (pptx_bytes prs) as [data|e]; simpl; [|done].
  unfold write, seek, new_BytesIO. simpl. by rewrite drop_nil, app_nil_r.
Qed.

Lemma deck_eq structured_slides template_file :
  create_presentation structured_slides template_file =
  match create_presentation_try structured_slides template_file with
  | (Ok buffer, tr) => (Ok (Some buffer), tr)
  | (Raise e, tr) => (Ok None, tr ++ [StError (deck_error_message e)])
  end.
Proof.
  unfold create_presentation, try_except, bind, emit, ret.
  destruct (create_presentation_try _ _) as [[buffer|e] tr]; simpl; [|done].
  by rewrite app_nil_r.
Qed.

Lemma deck_try_events structured_slides template_file :
  Forall (fun ev => is_pptx_event ev = true)
         (trace (create_presentation_try structured_slides template_file)).
Proof.
  rewrite deck_try_eq. destruct (built _ _); simpl; repeat constructor.
Qed.

End Equations.

(** ** The claims *)

Section Claims.

Lemma is_title_and_content_occurs layout :
  is_title_and_content layout = true ↔
  occurs (lit "Title") (name layout) ∧ occurs (lit "Content") (name layout).
Proof.
  unfold is_title_and_content.
  by rewrite andb_true_iff, !contains_occurs.
Qed.

Lemma find_title_and_content_first before layout after :
  Forall (fun l => is_title_and_content l = false) before →
  is_title_and_content layout = true →
  find_title_and_content (before ++ layout :: after) = Some layout.
Proof.
  intros Hbefore Hlayout.
  induction Hbefore as [|l before Hl _ IH]; simpl.
  - by rewrite Hlayout.
  - by rewrite Hl.
Qed.

Lemma find_title_and_content_none layouts :
  Forall (fun l => is_title_and_content l = false) layouts →
  find_title_and_content layouts = None.
Proof.
  induction 1 as [|l layouts Hl _ IH]; simpl; [done|]. by rewrite Hl.
Qed.




(** C3. Layout selection scans the layouts of the template in order
    and takes the first whose name contains both Title and Content;
    when no name contains both, the selection is [slide_layouts[1]],
    the layout at index 1. *)
Theorem select_layout_first_match_else_index_1 (prs : presentation) :
  (∀ before layout after,
     slide_layouts prs = before ++ layout :: after →
     Forall (fun l => ¬ (occurs (lit "Title") (name l) ∧
                         occurs (lit "Content") (name l))) before →
     occurs (lit "Title") (name layout) →
     occurs (lit "Content") (name layout) →
     select_layout prs = Ok layout) ∧
  (Forall (fun l => ¬ (occurs (lit "Title") (name l) ∧
                       occurs (lit "Content") (name l))) (slide_layouts prs) →
     select_layout prs = slide_layouts_getitem prs 1 ∧
     ∀ layout, slide_layouts prs !! 1%nat = Some layout →
               select_layout prs = Ok layout).
Proof.
  assert (Hneg : ∀ ls,
    Forall (fun l => ¬ (occurs (lit "Title") (name l) ∧
                        occurs (lit "Content") (name l))) ls →
    Forall (fun l => is_title_and_content l = false) ls).
  { intros ls Hls. eapply Forall_impl; [exact Hls|]. intros l Hl.
    destruct (is_title_and_content l) eqn:E; [|done].
    by apply is_title_and_content_occurs in E. }
  split.
  - intros before layout after Hsplit Hbefore Ht Hc.
    unfold select_layout. rewrite Hsplit.
    rewrite find_title_and_content_first; [done|by apply Hneg|].
    by apply is_title_and_content_occurs.
  - intros Hnone. unfold select_layout.
    rewrite (find_title_and_content_none _ (Hneg _ Hnone)).
    split; [done|]. intros layout Hl. unfold slide_layouts_getitem.
    by rewrite Hl.
Qed.

Lemma strip_fenced body :
  strip (fence ++ body ++ closing_fence) = fence ++ body ++ closing_fence.
Proof.
  replace (fence ++ body ++ closing_fence)
    with (96%N :: (List.tl fence ++ body ++ [96; 96]%N) ++ [96%N])
    by (simpl; by rewrite <- !app_assoc).
  by apply strip_ends.
Qed.

Lemma drop_take_fenced body :
  drop 7 (take (length (fence ++ body ++ closing_fence) - 3)
               (fence ++ body ++ closing_fence)) = body.
Proof.
  rewrite app_assoc, take_app_length'.
  - by apply drop_app_length'.
  - rewrite !length_app. change (length closing_fence) with 3%nat. lia.
Qed.

Lemma unwrap_fence_eq raw :
  unwrap_fence (Some raw) =
  Ok (if startswith (strip raw) fence
      then drop 7 (take (length (strip raw) - 3) (strip raw))
      else raw).
Proof.
  unfold unwrap_fence.
  destruct (startswith (strip raw) fence) eqn:Hpre; [|done].
  rewrite slice_7_m3; [done|]. by apply startswith_length in Hpre.
Qed.

Lemma unwrap_fenced body :
  unwrap_fence (Some (fence ++ body ++ closing_fence)) = Ok body.
Proof.
  rewrite unwrap_fence_eq, strip_fenced, startswith_app.
  by rewrite drop_take_fenced.
Qed.

(** C2. When the reply is the opening fence with the json tag, a body
    and the closing fence, with nothing around them, the first 7 and the
    last 3 characters are dropped and the body is what the JSON parser
    gets: the function returns what the body parses to.  When the
    stripped reply does not begin with the fence, the parser gets the
    reply as it is. *)
Theorem fenced_reply_unwrapped_plain_reply_unchanged
    (text guidance api_key reply : str) :
  openai_chat api_key model_name (messages_of (prompt_of text guidance))
    = Ok (Some reply) →
  (∀ body, reply = fence ++ body ++ closing_fence →
     body = drop 7 (take (length reply - 3) reply) ∧
     unwrap_fence (Some reply) = Ok body ∧
     get_slide_structure_from_llm text guidance api_key =
     match json_loads body with
     | Ok outline => (Ok outline, llm_events text guidance api_key)
     | Raise e => (Ok PyNone, llm_events text guidance api_key ++
                              [StError (llm_error_message e)])
     end) ∧
  (startswith (strip reply) fence = false →
     unwrap_fence (Some reply) = Ok reply ∧
     get_slide_structure_from_llm text guidance api_key =
     match json_loads reply with
     | Ok outline => (Ok outline, llm_events text guidance api_key)
     | Raise e => (Ok PyNone, llm_events text guidance api_key ++
                              [StError (llm_error_message e)])
     end).
Proof.
  intros Hreply. split.
  - intros body ->. split; [by rewrite drop_take_fenced|].
    split; [apply unwrap_fenced|].
    rewrite llm_eq, llm_try_eq, Hreply. unfold outcome. cbn [fst rbind].
    by rewrite unwrap_fenced.
  - intros Hplain.
    assert (unwrap_fence (Some reply) = Ok reply) as Hun
      by (by rewrite unwrap_fence_eq, Hplain).
    split; [done|].
    rewrite llm_eq, llm_try_eq, Hreply. unfold outcome. cbn [fst rbind].
    by rewrite Hun.
Qed.

Lemma strip_bare_fenced body :
  strip (closing_fence ++ body ++ closing_fence)
  = closing_fence ++ body ++ closing_fence.
Proof.
  replace (closing_fence ++ body ++ closing_fence)
    with (96%N :: ([96; 96]%N ++ body ++ [96; 96]%N) ++ [96%N])
    by (simpl; by rewrite <- !app_assoc).
  by apply strip_ends.
Qed.

Lemma no_json_tag body :
  startswith body (lit "json") = false →
  startswith (closing_fence ++ body ++ closing_fence) fence = false.
Proof.
  intros H.
  destruct body as [|c0 [|c1 [|c2 [|c3 body]]]]; cbn in *;
    repeat match goal with
           | |- context [N.eqb ?a ?b] =>
               is_var b; destruct (N.eqb a b); cbn in *
           end; done.
Qed.

(** C9. Whether the reply is unwrapped depends only on the stripped
    reply beginning with the 7 characters of the json fence.  When it
    does, the text parsed is the stripped reply without its first 7 and
    its last 3 characters, whatever those last characters are: a reply
    with no closing fence loses the end of its JSON.  A reply fenced
    with bare backquotes, no json tag, is parsed as it is. *)
Theorem unwrap_fence_decided_by_prefix (raw : str) :
  length fence = 7%nat ∧
  unwrap_fence (Some raw) =
    Ok (if startswith (strip raw) fence
        then drop 7 (take (length (strip raw) - 3) (strip raw))
        else raw) ∧
  unwrap_fence (Some (lit "```json[1,2,3]")) = Ok (lit "[1,2") ∧
  (∀ body, startswith body (lit "json") = false →
     unwrap_fence (Some (closing_fence ++ body ++ closing_fence))
     = Ok (closing_fence ++ body ++ closing_fence)).
Proof.
  split; [done|]. split; [apply unwrap_fence_eq|]. split; [done|].
  intros body Hbody.
  by rewrite unwrap_fence_eq, strip_bare_fenced, (no_json_tag _ Hbody).
Qed.

Lemma insert_by_idx_Forall (P : placeholder → Prop) ph l :
  P ph → Forall P l → Forall P (insert_by_idx ph l).
Proof.
  intros Hph. induction 1 as [|x l Hx Hl IH]; simpl.
  - by repeat constructor.
  - destruct (idx ph <=? idx x)%nat; by repeat constructor.
Qed.

(** Sorting by idx keeps what holds of every placeholder. *)
Lemma sort_by_idx_Forall (P : placeholder → Prop) l :
  Forall P l → Forall P (sort_by_idx l).
Proof.
  induction 1 as [|x l Hx Hl IH]; simpl; [constructor|].
  by apply insert_by_idx_Forall.
Qed.

Lemma new_slide_text_frame layout i ph :
  placeholders (new_slide layout) !! i = Some ph →
  text_frame ph = empty_text_frame.
Proof.
  unfold new_slide. cbn [placeholders]. intros Hi.
  eapply (Forall_lookup_1 (fun x => text_frame x = empty_text_frame)); [|exact Hi].
  apply sort_by_idx_Forall.
  generalize (List.filter cloneable (layout_placeholders layout)).
  intros l. induction l as [|x l IH]; simpl; by constructor.
Qed.

Lemma insert_by_idx_sorted ph l :
  StronglySorted le (List.map idx l) →
  StronglySorted le (List.map idx (insert_by_idx ph l)).
Proof.
  induction l as [|x l IH]; simpl; [by repeat constructor|].
  intros Hs. inversion Hs as [|? ? Hl Hx]; subst.
  destruct (idx ph <=? idx x)%nat eqn:Hle; simpl.
  - apply Nat.leb_le in Hle. constructor; [done|].
    constructor; [done|]. eapply Forall_impl; [exact Hx|]. simpl. lia.
  - apply Nat.leb_gt in Hle. constructor; [by apply IH|].
    change (Forall (le (idx x)) (List.map idx (insert_by_idx ph l))).
    apply Forall_forall. intros n Hn. apply list_elem_of_In in Hn.
    apply in_map_iff in Hn as (y & <- & Hy).
    assert (Forall (fun z => idx x ≤ idx z)%nat (insert_by_idx ph l)) as Hall.
    { apply insert_by_idx_Forall; [lia|].
      apply Forall_forall. intros z Hz.
      rewrite Forall_forall in Hx. apply Hx.
      apply list_elem_of_In, in_map, list_elem_of_In, Hz. }
    rewrite Forall_forall in Hall. apply Hall. by apply list_elem_of_In.
Qed.

(** The placeholders of a new slide come sorted by idx, whatever the
    order in which the layout stores them: the body found on it is a
    cloned placeholder of least idx from 1 on. *)
Lemma new_slide_sorted layout :
  StronglySorted le (List.map idx (placeholders (new_slide layout))).
Proof.
  unfold new_slide. cbn [placeholders].
  generalize (List.map clone_placeholder
                (List.filter cloneable (layout_placeholders layout))).
  intros l. induction l as [|x l IH]; simpl; [constructor|].
  by apply insert_by_idx_sorted.
Qed.

Lemma find_body_shape_set_body slide_data s s2 :
  set_body slide_data s = Ok s2 → find_body_shape s2 = find_body_shape s.
Proof.
  destruct (find_body_shape s) as [body|] eqn:Hb.
  - destruct (find_body_shape_lookup _ _ Hb) as (ph & Hph & _).
    rewrite (set_body_unfold _ _ _ _ Hb Hph).
    destruct (fill_text_frame _ _) as [tf|e]; [|done]. simpl. intros [= <-].
    rewrite <- Hb. unfold find_body_shape. cbn [placeholders].
    exact (list_find_idx_insert (fun n => (1 ≤ n)%nat) _ _ _ _ Hph).
  - unfold set_body. rewrite Hb. by intros [= <-].
Qed.

(** What a record leaves in the body shape, given what lines 92-101
    make of the text frame that was there. *)
Lemma fill_slide_body slide_data s s1 body ph0 tf :
  set_title slide_data s = Ok s1 →
  find_body_shape s = Some body → placeholders s !! body = Some ph0 →
  fill_text_frame slide_data (text_frame ph0) = Ok tf →
  ∃ s2 ph,
    fill_slide slide_data s = Ok s2 ∧
    find_body_shape s2 = Some body ∧
    placeholders s2 !! body = Some ph ∧
    idx ph = idx ph0 ∧ text_frame ph = tf.
Proof.
  intros Htitle Hb Hph0 Htf.
  destruct (set_title_inv _ _ _ Htitle) as (_ & Hb1 & Hsame).
  rewrite Hb in Hb1. specialize (Hsame _ Hb). rewrite Hph0 in Hsame.
  unfold fill_slide. rewrite Htitle. simpl.
  pose proof (set_body_unfold slide_data _ _ _ Hb1 Hsame) as Hbody.
  rewrite Htf in Hbody. simpl in Hbody.
  eexists _, _. split; [exact Hbody|]. split.
  - by rewrite (find_body_shape_set_body _ _ _ Hbody).
  - cbn [placeholders].
    split; [apply list_lookup_insert_eq; by eapply lookup_lt_Some | done].
Qed.

(** C4. For a record whose content is the list A, B, C and a slide
    with a body placeholder (the first placeholder with idx >= 1),
    whatever the text frame of the body held is replaced: its first
    paragraph is A, the primary text, and B and C follow in that order
    as paragraphs at indent level 1.  (The title step did not raise.) *)
Theorem body_of_A_B_C (slide_data : pyval) (s s1 : slide) (body : nat) :
  get slide_data (lit "content") (PyList []) =
    Ok (PyList [PyStr (lit "A"); PyStr (lit "B"); PyStr (lit "C")]) →
  set_title slide_data s = Ok s1 →
  find_body_shape s = Some body →
  ∃ s2 ph,
    fill_slide slide_data s = Ok s2 ∧
    find_body_shape s2 = Some body ∧
    placeholders s2 !! body = Some ph ∧
    text_frame ph =
      MkTextFrame (Paragraph (lit "A") 0)
                  [Paragraph (lit "B") 1; Paragraph (lit "C") 1].
Proof.
  intros Hget Htitle Hb.
  destruct (find_body_shape_lookup s body) as (ph0 & Hph0 & _).
  { destruct (set_title_inv _ _ _ Htitle) as (_ & Hb1 & _). congruence. }
  destruct (fill_slide_body slide_data s s1 body ph0
              (MkTextFrame (Paragraph (lit "A") 0)
                 [Paragraph (lit "B") 1; Paragraph (lit "C") 1]))
    as (s2 & ph & H2 & Hb2 & Hph & _ & Htf); try done.
  - rewrite (fill_text_frame_strs _ _ (lit "A") [lit "B"; lit "C"] Hget);
      [done|by repeat constructor].
  - by exists s2, ph.
Qed.

(** C5. For a record whose content is the empty list or is not a list,
    the body placeholder of the slide is cleared and nothing is added:
    its text frame is the one [clear] leaves, a single paragraph without
    text; on a slide just made from a layout that is the one empty
    paragraph a new placeholder has.  (The record is a dict, since its
    content is read, and the title step did not raise.) *)
Theorem body_of_empty_or_non_list_content
    (slide_data content_points : pyval) (s s1 : slide) (body : nat)
    (ph0 : placeholder) :
  get slide_data (lit "content") (PyList []) = Ok content_points →
  content_points = PyList [] ∨ is_list content_points = false →
  set_title slide_data s = Ok s1 →
  find_body_shape s = Some body →
  placeholders s !! body = Some ph0 →
  ∃ s2 ph,
    fill_slide slide_data s = Ok s2 ∧
    placeholders s2 !! body = Some ph ∧
    text_frame ph = clear (text_frame ph0) ∧
    paragraphs (text_frame ph) =
      [Paragraph [] (p_level (tf_first (text_frame ph0)))] ∧
    (∀ layout, s = new_slide layout →
               paragraphs (text_frame ph) = [empty_paragraph]).
Proof.
  intros Hget Hcontent Htitle Hb Hph0.
  destruct (fill_slide_body slide_data s s1 body ph0 (clear (text_frame ph0)))
    as (s2 & ph & H2 & _ & Hph & _ & Htf); try done.
  - by eapply fill_text_frame_nothing.
  - exists s2, ph. rewrite Htf. repeat split; try done.
    intros layout ->. by rewrite (new_slide_text_frame _ _ _ Hph0).
Qed.

(** C10. For a record that is a dict: without a title key the title
    placeholder, when the slide has one, gets the empty string (one
    paragraph without text); without a content key the body is cleared
    and gets no paragraph; neither step raises, and a record with
    neither key still adds its slide to the document. *)
Theorem missing_title_and_content_keys
    (d : list (str * pyval)) (s : slide) :
  (dict_lookup d (lit "title") = None →
     (∃ s1, set_title (PyDict d) s = Ok s1) ∧
     ∀ title ph,
       shapes_title s = Some title → placeholders s !! title = Some ph →
       set_title (PyDict d) s =
       Ok (Slide (slide_layout_of s)
             (<[title := Placeholder (idx ph) (type ph)
                           (MkTextFrame (Paragraph [] 0) [])]>
                (placeholders s)))) ∧
  (dict_lookup d (lit "content") = None →
     (∃ s2, set_body (PyDict d) s = Ok s2) ∧
     ∀ body ph,
       find_body_shape s = Some body → placeholders s !! body = Some ph →
       set_body (PyDict d) s =
       Ok (Slide (slide_layout_of s)
             (<[body := Placeholder (idx ph) (type ph)
                          (clear (text_frame ph))]>
                (placeholders s)))) ∧
  (dict_lookup d (lit "title") = None →
   dict_lookup d (lit "content") = None →
     ∀ layout prs, ∃ s',
       fill_slide (PyDict d) (new_slide layout) = Ok s' ∧
       slide_step layout prs (PyDict d) =
       Ok (Prs (slide_layouts prs) (slides prs ++ [s']))).
Proof.
  assert (Htitle : dict_lookup d (lit "title") = None →
    ∀ title ph,
      shapes_title s = Some title → placeholders s !! title = Some ph →
      set_title (PyDict d) s =
      Ok (Slide (slide_layout_of s)
            (<[title := Placeholder (idx ph) (type ph)
                          (MkTextFrame (Paragraph [] 0) [])]>
               (placeholders s)))).
  { intros Hno title ph Ht Hph.
    apply (set_title_str _ _ [] _ _); [|done..]. simpl. by rewrite Hno. }
  assert (Hbody : dict_lookup d (lit "content") = None →
    ∀ body ph,
      find_body_shape s = Some body → placeholders s !! body = Some ph →
      set_body (PyDict d) s =
      Ok (Slide (slide_layout_of s)
            (<[body := Placeholder (idx ph) (type ph)
                         (clear (text_frame ph))]>
               (placeholders s)))).
  { intros Hno body ph Hb Hph.
    rewrite (set_body_unfold _ _ _ _ Hb Hph).
    rewrite (fill_text_frame_nothing _ _ (PyList [])); [done| |by left].
    simpl. by rewrite Hno. }
  split; [|split].
  - intros Hno. split; [|by apply Htitle].
    destruct (shapes_title s) as [title|] eqn:Ht.
    + destruct (shapes_title_lookup _ _ Ht) as (ph & Hph & _).
      eexists. by apply Htitle.
    + exists s. unfold set_title. by rewrite Ht.
  - intros Hno. split; [|by apply Hbody].
    destruct (find_body_shape s) as [body|] eqn:Hb.
    + destruct (find_body_shape_lookup _ _ Hb) as (ph & Hph & _).
      eexists. by apply Hbody.
    + exists s. unfold set_body. by rewrite Hb.
  - intros Hnot Hnoc layout prs.
    destruct (fill_slide_ok (PyDict d) (new_slide layout)) as [s' Hs'].
    { simpl. by rewrite Hnot, Hnoc. }
    exists s'. split; [done|]. by rewrite slide_step_unfold, Hs'.
Qed.

Lemma truthy_str s : s ≠ [] → negb (truthy (PyStr s)) = false.
Proof. intros H. simpl. by rewrite bool_decide_eq_false_2. Qed.

(** The handler once the three inputs are there. *)
Lemma handler_inputs_present text guidance api_key template :
  text ≠ [] → api_key ≠ [] →
  generate_button_handler true text guidance api_key (Some template) =
  (emit (StSpinner spinner_text) ;;;
   structured_slides <- get_slide_structure_from_llm text guidance api_key ;;
   if truthy structured_slides then
     presentation_buffer <- create_presentation structured_slides template ;;
     match presentation_buffer with
     | Some buffer =>
         emit (StSuccess success_message) ;;;
         emit (StDownloadButton download_label buffer
                 (lit "generated_presentation.pptx") download_mime true)
     | None => ret tt
     end
   else ret tt).
Proof.
  intros Htext Hkey. unfold generate_button_handler.
  by rewrite (truthy_str _ Htext), (truthy_str _ Hkey).
Qed.

(** The failures the specification names, each ending in the error
    branch of its function. *)
Lemma request_failure_reported text guidance api_key e :
  openai_chat api_key model_name (messages_of (prompt_of text guidance))
    = Raise e →
  get_slide_structure_from_llm text guidance api_key =
  (Ok PyNone, llm_events text guidance api_key ++ [StError (llm_error_message e)]).
Proof.
  intros H. rewrite llm_eq, llm_try_eq. unfold outcome. cbn [fst].
  by rewrite H.
Qed.

Lemma non_json_reply_reported text guidance api_key reply raw e :
  openai_chat api_key model_name (messages_of (prompt_of text guidance))
    = Ok (Some reply) →
  unwrap_fence (Some reply) = Ok raw →
  json_loads raw = Raise e →
  get_slide_structure_from_llm text guidance api_key =
  (Ok PyNone, llm_events text guidance api_key ++ [StError (llm_error_message e)]).
Proof.
  intros Hreply Hraw Hjson. rewrite llm_eq, llm_try_eq. unfold outcome.
  cbn [fst]. rewrite Hreply. cbn [rbind]. rewrite Hraw. cbn [rbind].
  by rewrite Hjson.
Qed.

Lemma corrupt_template_reported structured_slides template e :
  Presentation template = Raise e →
  create_presentation structured_slides template =
  (Ok None, [PptxPresentation template; StError (deck_error_message e)]).
Proof.
  intros H. rewrite deck_eq, deck_try_eq. unfold built. by rewrite H.
Qed.

Lemma missing_layouts_reported structured_slides template prs :
  Presentation template = Ok prs →
  find_title_and_content (slide_layouts prs) = None →
  slide_layouts prs !! 1%nat = None →
  create_presentation structured_slides template =
  (Ok None,
   [PptxPresentation template;
    StError (deck_error_message
               (Exn IndexError (lit "slide layout index out of range")))]).
Proof.
  intros Hopen Hfind Hnone. rewrite deck_eq, deck_try_eq. unfold built.
  rewrite Hopen. cbn [rbind]. unfold select_layout, slide_layouts_getitem.
  by rewrite Hfind, Hnone.
Qed.

Lemma write_failure_reported structured_slides template prs e :
  built structured_slides template = Ok prs →
  pptx_bytes prs = Raise e →
  create_presentation structured_slides template =
  (Ok None,
   [PptxPresentation template; PptxSave prs; StError (deck_error_message e)]).
Proof.
  intros Hbuilt Hsave. rewrite deck_eq, deck_try_eq, Hbuilt.
  unfold buffer_of. by rewrite Hsave.
Qed.

(** C6. Every exception raised in the [try] block of
    [get_slide_structure_from_llm] or of [create_presentation] is caught
    there: the function shows an error message with the text of the
    exception, returns None and never raises.  After an error of the
    outline request the handler opens no template, saves no deck and
    offers no download; after an error of the deck builder it shows no
    success message and offers no download. *)
Theorem exceptions_caught_and_reported :
  (∀ text guidance api_key,
     (∃ v tr, get_slide_structure_from_llm text guidance api_key = (Ok v, tr)) ∧
     ∀ e tr,
       get_slide_structure_from_llm_try text guidance api_key = (Raise e, tr) →
       get_slide_structure_from_llm text guidance api_key =
       (Ok PyNone, tr ++ [StError (llm_error_message e)])) ∧
  (∀ structured_slides template,
     (∃ r tr, create_presentation structured_slides template = (Ok r, tr)) ∧
     ∀ e tr,
       create_presentation_try structured_slides template = (Raise e, tr) →
       create_presentation structured_slides template =
       (Ok None, tr ++ [StError (deck_error_message e)])) ∧
  (∀ text guidance api_key template e tr,
     text ≠ [] → api_key ≠ [] →
     get_slide_structure_from_llm_try text guidance api_key = (Raise e, tr) →
     generate_button_handler true text guidance api_key (Some template) =
       (Ok (), StSpinner spinner_text :: tr ++ [StError (llm_error_message e)]) ∧
     Forall (fun ev => is_pptx_event ev = false ∧
                       is_success_or_download ev = false)
       (trace (generate_button_handler true text guidance api_key
                 (Some template)))) ∧
  (∀ text guidance api_key template structured_slides e tr,
     text ≠ [] → api_key ≠ [] →
     outcome (get_slide_structure_from_llm_try text guidance api_key)
       = Ok structured_slides →
     truthy structured_slides = true →
     create_presentation_try structured_slides template = (Raise e, tr) →
     generate_button_handler true text guidance api_key (Some template) =
       (Ok (), StSpinner spinner_text :: llm_events text guidance api_key ++
               tr ++ [StError (deck_error_message e)]) ∧
     Forall (fun ev => is_success_or_download ev = false)
       (trace (generate_button_handler true text guidance api_key
                 (Some template)))).
Proof.
  assert (Hllm : ∀ text guidance api_key e tr,
    get_slide_structure_from_llm_try text guidance api_key = (Raise e, tr) →
    get_slide_structure_from_llm text guidance api_key =
    (Ok PyNone, tr ++ [StError (llm_error_message e)])).
  { intros * H. unfold get_slide_structure_from_llm. by rewrite H. }
  assert (Hdeck : ∀ structured_slides template e tr,
    create_presentation_try structured_slides template = (Raise e, tr) →
    create_presentation structured_slides template =
    (Ok None, tr ++ [StError (deck_error_message e)])).
  { intros * H. by rewrite deck_eq, H. }
  split; [|split; [|split]].
  - intros text guidance api_key. split; [|by apply Hllm].
    rewrite llm_eq. destruct (outcome _); eauto.
  - intros structured_slides template. split; [|by apply Hdeck].
    rewrite deck_eq.
    destruct (create_presentation_try _ _) as [[buffer|e] tr]; eauto.
  - intros text guidance api_key template e tr Htext Hkey Hraise.
    assert (generate_button_handler true text guidance api_key (Some template)
            = (Ok (), StSpinner spinner_text :: tr ++
                      [StError (llm_error_message e)])) as Heq.
    { rewrite handler_inputs_present by done.
      unfold bind at 1 2. rewrite (Hllm _ _ _ _ _ Hraise). simpl.
      by rewrite app_nil_r. }
    split; [done|]. rewrite Heq. simpl.
    rewrite llm_try_eq in Hraise. injection Hraise as _ <-.
    repeat constructor.
  - intros text guidance api_key template structured_slides e tr
           Htext Hkey Hok Htruthy Hraise.
    assert (generate_button_handler true text guidance api_key (Some template)
            = (Ok (), StSpinner spinner_text ::
                      llm_events text guidance api_key ++
                      tr ++ [StError (deck_error_message e)])) as Heq.
    { rewrite handler_inputs_present by done.
      unfold bind at 1 2. rewrite llm_eq, Hok. cbn [emit].
      rewrite Htruthy. unfold bind. rewrite (Hdeck _ _ _ _ Hraise). simpl.
      by rewrite app_nil_r. }
    split; [done|]. rewrite Heq. simpl.
    pose proof (deck_try_events structured_slides template) as Hev.
    rewrite Hraise in Hev. simpl in Hev.
    do 3 (constructor; [done|]).
    apply Forall_app. split; [|repeat constructor].
    eapply Forall_impl; [exact Hev|]. intros [] ?; done.
Qed.

(** C7. When the button is pressed and the text, the key or the
    template is missing, the handler shows one warning and does nothing
    else; with the template missing no request goes to the LLM. *)
Theorem missing_input_warns_and_aborts
    (text guidance api_key : str) (uploaded_template : option UploadedFile) :
  text = [] ∨ api_key = [] ∨ uploaded_template = None →
  (∃ message,
     generate_button_handler true text guidance api_key uploaded_template
     = (Ok (), [StWarning message])) ∧
  Forall (fun ev => is_llm_event ev = false ∧ is_pptx_event ev = false)
    (trace (generate_button_handler true text guidance api_key
              uploaded_template)) ∧
  (text ≠ [] → api_key ≠ [] → uploaded_template = None →
   generate_button_handler true text guidance api_key uploaded_template
   = (Ok (), [StWarning (lit "Please upload a PowerPoint template.")])).
Proof.
  intros Hmissing.
  assert (∃ message,
     generate_button_handler true text guidance api_key uploaded_template
     = (Ok (), [StWarning message])) as [message Heq].
  { unfold generate_button_handler.
    destruct text as [|c text]; [by eexists|].
    destruct api_key as [|k api_key]; [by eexists|].
    destruct uploaded_template; [|by eexists].
    by destruct Hmissing as [|[|]]. }
  split; [by exists message|]. split.
  - rewrite Heq. by repeat constructor.
  - intros Htext Hkey ->. unfold generate_button_handler.
    by rewrite (truthy_str _ Htext), (truthy_str _ Hkey).
Qed.

(** C8. When the reply parses to an empty JSON array, the handler
    stops after the outline request as it does after a failure:
    [create_presentation] is not entered (no template is opened, no deck
    saved), there is no success message and no download, and no error
    is shown either. *)
Theorem empty_outline_stops_silently
    (text guidance api_key : str) (template : UploadedFile) :
  text ≠ [] → api_key ≠ [] →
  outcome (get_slide_structure_from_llm_try text guidance api_key)
    = Ok (PyList []) →
  generate_button_handler true text guidance api_key (Some template) =
    (Ok (), StSpinner spinner_text :: llm_events text guidance api_key) ∧
  Forall (fun ev => is_pptx_event ev = false ∧
                    is_success_or_download ev = false ∧
                    is_error ev = false)
    (trace (generate_button_handler true text guidance api_key
              (Some template))).
Proof.
  intros Htext Hkey Hempty.
  assert (generate_button_handler true text guidance api_key (Some template)
          = (Ok (), StSpinner spinner_text :: llm_events text guidance api_key))
    as Heq.
  { rewrite handler_inputs_present by done.
    unfold bind. rewrite llm_eq, Hempty. simpl. by rewrite ?app_nil_r. }
  split; [done|]. rewrite Heq. by repeat constructor.
Qed.

End Claims.

(** ** Further properties of the code *)

Section MoreOnTheOutlineRequest.

Lemma lstrip_spaces ws s :
  Forall (fun c => isspace c = true) ws → lstrip (ws ++ s) = lstrip s.
Proof.
  induction 1 as [|c ws Hc _ IH]; simpl; [done|]. by rewrite Hc.
Qed.

(** [strip] removes any white space around a text that itself begins
    and ends with something else. *)
Lemma strip_padded ws1 ws2 a b s :
  Forall (fun c => isspace c = true) ws1 →
  Forall (fun c => isspace c = true) ws2 →
  isspace a = false → isspace b = false →
  strip (ws1 ++ (a :: s ++ [b]) ++ ws2) = a :: s ++ [b].
Proof.
  intros H1 H2 Ha Hb. unfold strip, rstrip.
  rewrite (lstrip_spaces _ _ H1).
  change ((a :: s ++ [b]) ++ ws2) with (a :: (s ++ [b]) ++ ws2).
  rewrite (lstrip_nonspace _ _ Ha).
  change (a :: (s ++ [b]) ++ ws2) with ((a :: s ++ [b]) ++ ws2).
  rewrite rev_app_distr, lstrip_spaces by (by apply Forall_rev).
  change (a :: s ++ [b]) with ((a :: s) ++ [b]).
  rewrite rev_unit, (lstrip_nonspace _ _ Hb).
  by rewrite <- rev_unit, rev_involutive.
Qed.

(** X1. Each call of [get_slide_structure_from_llm] sets the key and
    then sends one chat request, with the fixed model and a system and
    a user message; nothing else leaves the function but at most one
    error message, and with an error message the result is None. *)
Theorem one_request_per_call (text guidance api_key : str) :
  ∃ v rest,
    get_slide_structure_from_llm text guidance api_key =
    (Ok v,
     [OpenaiSetApiKey api_key;
      OpenaiChatCompletionsCreate (lit "gpt-3.5-turbo")
        [(lit "system", system_message);
         (lit "user", prompt_of text guidance)]] ++ rest) ∧
    (rest = [] ∨ ∃ e, rest = [StError (llm_error_message e)] ∧ v = PyNone).
Proof.
  rewrite llm_eq. destruct (outcome _) as [v|e].
  - exists v, []. split; [done|by left].
  - exists PyNone, [StError (llm_error_message e)]. split; [done|].
    right. by exists e.
Qed.

Lemma occurs_here sub post : occurs sub (sub ++ post).
Proof. by exists [], post. Qed.

Lemma occurs_later sub pre s : occurs sub s → occurs sub (pre ++ s).
Proof.
  intros (a & b & ->). exists (pre ++ a), b. by rewrite <- app_assoc.
Qed.

(** X2. The prompt carries the input text as it is, and the guidance
    as it is when there is one; without guidance it is the prompt of
    the default guidance. *)
Theorem prompt_embeds_text_and_guidance (text guidance : str) :
  occurs text (prompt_of text guidance) ∧
  (guidance ≠ [] → occurs guidance (prompt_of text guidance)) ∧
  prompt_of text [] = prompt_of text (lit "A standard informative presentation").
Proof.
  split; [|split].
  - unfold prompt_of.
    repeat first [apply occurs_here | apply occurs_later].
  - intros Hg. unfold prompt_of. destruct guidance as [|c g]; [done|].
    repeat first [apply occurs_here | apply occurs_later].
  - done.
Qed.

(** X3. White space before the opening fence and after the closing
    fence does not matter: the parser still gets exactly the body. *)
Theorem padded_fenced_reply_unwrapped (ws1 ws2 body : str) :
  Forall (fun c => isspace c = true) ws1 →
  Forall (fun c => isspace c = true) ws2 →
  unwrap_fence (Some (ws1 ++ (fence ++ body ++ closing_fence) ++ ws2)) = Ok body.
Proof.
  intros H1 H2. rewrite unwrap_fence_eq.
  assert (strip (ws1 ++ (fence ++ body ++ closing_fence) ++ ws2)
          = fence ++ body ++ closing_fence) as ->.
  { replace (fence ++ body ++ closing_fence)
      with (96%N :: (List.tl fence ++ body ++ [96; 96]%N) ++ [96%N])
      by (simpl; by rewrite <- !app_assoc).
    by apply strip_padded. }
  by rewrite startswith_app, drop_take_fenced.
Qed.

(** X4. An unwrapped reply is always the stripped reply shortened by
    ten characters; a stripped reply of ten characters or fewer that
    begins with the fence gives the parser the empty text. *)
Theorem unwrapped_length (raw : str) :
  startswith (strip raw) fence = true →
  ∃ u, unwrap_fence (Some raw) = Ok u ∧
       length u = (length (strip raw) - 10)%nat ∧
       ((length (strip raw) ≤ 10)%nat → u = []).
Proof.
  intros Hpre. rewrite unwrap_fence_eq, Hpre. eexists. split; [done|].
  assert (length (drop 7 (take (length (strip raw) - 3) (strip raw)))
          = (length (strip raw) - 10)%nat) as Hlen.
  { rewrite length_drop, length_take. lia. }
  split; [done|]. intros Hshort. apply nil_length_inv. lia.
Qed.

(** X5. A reply without content (None) is not parsed: the attempt to
    strip it raises, which is reported like any other failure. *)
Theorem reply_without_content_reported (text guidance api_key : str) :
  openai_chat api_key model_name (messages_of (prompt_of text guidance))
    = Ok None →
  get_slide_structure_from_llm text guidance api_key =
  (Ok PyNone,
   llm_events text guidance api_key ++
   [StError (lit "Error calling LLM: 'NoneType' object has no attribute 'strip'. Check your API key and the input text.")]).
Proof.
  intros H. rewrite llm_eq, llm_try_eq. unfold outcome. cbn [fst].
  by rewrite H.
Qed.

End MoreOnTheOutlineRequest.

Section MoreOnTheDeckBuilder.

Lemma find_title_and_content_some layouts layout :
  find_title_and_content layouts = Some layout →
  layout ∈ layouts ∧ is_title_and_content layout = true.
Proof.
  induction layouts as [|l layouts IH]; simpl; [done|].
  destruct (is_title_and_content l) eqn:Hl.
  - intros [= <-]. split; [left|done].
  - intros [Hin Hok]%IH. split; [by right|done].
Qed.

Lemma find_title_and_content_none_inv layouts :
  find_title_and_content layouts = None →
  Forall (fun l => is_title_and_content l = false) layouts.
Proof.
  induction layouts as [|l layouts IH]; simpl; [constructor|].
  destruct (is_title_and_content l) eqn:Hl; [done|].
  intros H. constructor; [done|by apply IH].
Qed.

(** X6. The layout selected is always one of the layouts of the
    template.  Selection fails exactly when no layout name contains
    both words and the template has fewer than two layouts, and then
    with the index error of [slide_layouts[1]]. *)
Theorem select_layout_member_or_index_error (prs : presentation) :
  (∀ layout, select_layout prs = Ok layout → layout ∈ slide_layouts prs) ∧
  ((∃ e, select_layout prs = Raise e) ↔
   Forall (fun l => is_title_and_content l = false) (slide_layouts prs) ∧
   (length (slide_layouts prs) < 2)%nat) ∧
  (∀ e, select_layout prs = Raise e →
        e = Exn IndexError (lit "slide layout index out of range")).
Proof.
  unfold select_layout, slide_layouts_getitem.
  destruct (find_title_and_content (slide_layouts prs)) as [found|] eqn:Hfind.
  - destruct (find_title_and_content_some _ _ Hfind) as [Hin Hok].
    split; [by intros ? [= <-]|]. split; [|done]. split.
    + by intros [e ?].
    + intros [Hnone _]. rewrite (find_title_and_content_none _ Hnone) in Hfind.
      done.
  - apply find_title_and_content_none_inv in Hfind.
    destruct (slide_layouts prs !! 1%nat) as [l1|] eqn:H1.
    + split; [intros ? [= <-]; by eapply list_elem_of_lookup_2|].
      split; [|done]. split; [by intros [e ?]|].
      intros [_ Hlen]. apply lookup_lt_Some in H1. lia.
    + split; [done|]. split; [|intros e He; by injection He].
      split; [|by eauto].
      intros _. split; [done|]. apply lookup_ge_None in H1. lia.
Qed.

Lemma map_insert_same {B} (f : placeholder → B) (phs : list placeholder) i ph ph' :
  phs !! i = Some ph → f ph' = f ph →
  List.map f (<[i := ph']> phs) = List.map f phs.
Proof.
  revert i. induction phs as [|x phs IH]; intros [|i] Hi Hf; try done; simpl in *.
  - injection Hi as ->. by rewrite Hf.
  - f_equal. by apply IH.
Qed.

(** What a step that succeeds can have done: nothing, or replaced the
    text frame of the shape behind its handle. *)
Lemma set_title_cases slide_data s s1 :
  set_title slide_data s = Ok s1 →
  (shapes_title s = None ∧ s1 = s) ∨
  ∃ title ph tf,
    shapes_title s = Some title ∧ placeholders s !! title = Some ph ∧
    s1 = Slide (slide_layout_of s)
               (<[title := Placeholder (idx ph) (type ph) tf]> (placeholders s)).
Proof.
  unfold set_title. destruct (shapes_title s) as [title|] eqn:Ht.
  - destruct (shapes_title_lookup _ _ Ht) as (ph & Hph & _).
    destruct (get _ _ _) as [v|e]; [|done]. simpl.
    rewrite (update_at_lookup _ _ _ _ Hph). unfold shape_set_text.
    destruct (set_text _ _ v) as [tf|e]; [|done]. simpl. intros [= <-].
    right. by exists title, ph, tf.
  - intros [= <-]. by left.
Qed.

Lemma set_body_cases slide_data s s2 :
  set_body slide_data s = Ok s2 →
  (find_body_shape s = None ∧ s2 = s) ∨
  ∃ body ph tf,
    find_body_shape s = Some body ∧ placeholders s !! body = Some ph ∧
    s2 = Slide (slide_layout_of s)
               (<[body := Placeholder (idx ph) (type ph) tf]> (placeholders s)).
Proof.
  destruct (find_body_shape s) as [body|] eqn:Hb.
  - destruct (find_body_shape_lookup _ _ Hb) as (ph & Hph & _).
    rewrite (set_body_unfold _ _ _ _ Hb Hph).
    destruct (fill_text_frame _ _) as [tf|e]; [|done]. simpl. intros [= <-].
    right. by exists body, ph, tf.
  - unfold set_body. rewrite Hb. intros [= <-]. by left.
Qed.

(** X7. Filling a slide changes nothing but the text of the title
    shape and of the body shape: the slide keeps its layout, its
    placeholders keep their number, order, idx and type, and every
    placeholder that is neither the title nor the body found keeps its
    text frame. *)
Theorem fill_slide_touches_title_and_body_only
    (slide_data : pyval) (s s2 : slide) :
  fill_slide slide_data s = Ok s2 →
  slide_layout_of s2 = slide_layout_of s ∧
  List.map idx (placeholders s2) = List.map idx (placeholders s) ∧
  List.map type (placeholders s2) = List.map type (placeholders s) ∧
  ∀ i ph, placeholders s !! i = Some ph →
          shapes_title s ≠ Some i → find_body_shape s ≠ Some i →
          placeholders s2 !! i = Some ph.
Proof.
  unfold fill_slide.
  destruct (set_title slide_data s) as [s1|e] eqn:Htitle; [|done]. simpl.
  intros Hbody.
  destruct (set_title_inv _ _ _ Htitle) as (_ & Hfb & _).
  assert (slide_layout_of s1 = slide_layout_of s ∧
          List.map idx (placeholders s1) = List.map idx (placeholders s) ∧
          List.map type (placeholders s1) = List.map type (placeholders s) ∧
          ∀ i ph, placeholders s !! i = Some ph → shapes_title s ≠ Some i →
                  placeholders s1 !! i = Some ph) as (Hl1 & Hi1 & Ht1 & Hk1).
  { destruct (set_title_cases _ _ _ Htitle)
      as [[_ ->]|(title & ph & tf & Ht & Hph & ->)]; [done|].
    cbn [slide_layout_of placeholders].
    rewrite !(map_insert_same _ _ _ _ _ Hph) by done.
    repeat split; try done. intros i ph' Hi Hne.
    rewrite list_lookup_insert_ne; [done|congruence]. }
  destruct (set_body_cases _ _ _ Hbody)
    as [[_ ->]|(body & ph & tf & Hb & Hph & ->)].
  - repeat split; try done. intros i ph Hi Hne _. by apply Hk1.
  - cbn [slide_layout_of placeholders].
    rewrite !(map_insert_same _ _ _ _ _ Hph) by done.
    repeat split; try done. intros i ph' Hi Hnt Hnb.
    rewrite list_lookup_insert_ne; [by apply Hk1|congruence].
Qed.

Lemma split_lines_one_line s :
  Forall (fun c => c ≠ 10%N) s → split_lines s = (s, []).
Proof.
  induction 1 as [|c s Hc _ IH]; simpl; [done|].
  rewrite IH. by apply N.eqb_neq in Hc as ->.
Qed.

(** A plain text is one line, one run, and stored as it is. *)
Lemma plain_facts s :
  plain s = true →
  storable s = true ∧ split_lines s = (s, []) ∧ stored_text s = s.
Proof.
  unfold stored_text.
  induction s as [|c s IH]; [done|]. cbn [plain forallb]. fold (plain s).
  intros [Hc Hs]%andb_true_iff. destruct (IH Hs) as (Hst & Hlines & Htext).
  unfold plain_char in Hc.
  apply andb_true_iff in Hc as [[Hxml Hbr%negb_true_iff]%andb_true_iff
                                 Hctrl%negb_true_iff].
  split; [|split].
  - cbn [storable forallb]. fold (storable s). by rewrite Hxml, Hst.
  - cbn [split_lines]. rewrite Hlines.
    assert (N.eqb c 10 = false) as ->; [|done].
    unfold is_break in Hbr. by apply orb_false_iff in Hbr as [-> _].
  - cbn [runs]. destruct (runs s) as [r rs]. rewrite Hbr.
    cbn [escape_ctrl_chars flat_map]. rewrite Hctrl.
    cbn [app]. f_equal. exact Htext.
Qed.

Lemma plain_paragraphs rest :
  Forall (fun x => plain x = true) rest →
  List.map (fun x => Paragraph (stored_text x) 1) rest =
  List.map (fun x => Paragraph x 1) rest.
Proof.
  induction 1 as [|x rest Hx _ IH]; simpl; [done|].
  destruct (plain_facts _ Hx) as (_ & _ & ->). by rewrite IH.
Qed.

(** X8. For a content that is a non-empty list of strings the library
    can store (none has a surrogate, U+FFFE or U+FFFF), the body holds
    the lines of the first string as paragraphs at level 0, followed by
    one paragraph at level 1 per further string, in the order of the
    list, each with its text as the library stores it: a line feed or
    vertical tab as a line break, a control character escaped.  Strings
    without such characters are kept as they are, the first as one
    paragraph. *)
Theorem body_of_strings
    (slide_data : pyval) (s s1 : slide) (body : nat) (first : str)
    (rest : list str) :
  get slide_data (lit "content") (PyList []) =
    Ok (PyList (List.map PyStr (first :: rest))) →
  Forall (fun x => storable x = true) (first :: rest) →
  set_title slide_data s = Ok s1 →
  find_body_shape s = Some body →
  ∃ s2 ph,
    fill_slide slide_data s = Ok s2 ∧
    placeholders s2 !! body = Some ph ∧
    paragraphs (text_frame ph) =
      paragraphs (frame_of_lines first) ++
      List.map (fun x => Paragraph (stored_text x) 1) rest ∧
    (Forall (fun x => plain x = true) (first :: rest) →
     paragraphs (text_frame ph) =
       Paragraph first 0 :: List.map (fun x => Paragraph x 1) rest).
Proof.
  intros Hget Hall Htitle Hb.
  destruct (find_body_shape_lookup s body Hb) as (ph0 & Hph0 & _).
  destruct (fill_slide_body slide_data s s1 body ph0 _ Htitle Hb Hph0
              (fill_text_frame_strs _ _ _ _ Hget Hall))
    as (s2 & ph & H2 & _ & Hph & _ & Htf).
  exists s2, ph. split; [done|]. split; [done|]. rewrite Htf. split; [done|].
  intros Hplain. inversion Hplain as [|? ? Hfirst Hrest]; subst.
  cbn [paragraphs tf_first tf_more]. rewrite (plain_paragraphs _ Hrest).
  unfold frame_of_lines.
  destruct (plain_facts _ Hfirst) as (_ & -> & Htext).
  cbn [tf_first tf_more List.map app]. by rewrite Htext.
Qed.

Lemma add_points_raise points : ∀ tf,
  forallb is_text points = false → ∃ e, add_points points tf = Raise e.
Proof.
  induction points as [|point points IH]; intros tf; [done|].
  cbn [forallb add_points add_paragraph]. intros Hbad.
  destruct point as [| | | |t| |]; try (by eexists).
  cbn [set_paragraph_text].
  destruct (first_refused t) as [r|] eqn:Hr; [by eexists|].
  cbn [rbind]. apply IH.
  destruct (storable t) eqn:Ht.
  - simpl in Hbad. by rewrite Ht in Hbad.
  - destruct (first_refused_some _ Ht) as [r Hsome]. congruence.
Qed.

(** X9. A content list with an item that is not a string, or that is
    a string the library cannot store, makes the record fail: filling
    the slide raises, provided the slide has a body placeholder. *)
Theorem content_item_not_str_raises
    (slide_data : pyval) (s s1 : slide) (body : nat) (items : list pyval) :
  get slide_data (lit "content") (PyList []) = Ok (PyList items) →
  forallb is_text items = false →
  set_title slide_data s = Ok s1 →
  find_body_shape s = Some body →
  ∃ e, fill_slide slide_data s = Raise e.
Proof.
  intros Hget Hbad Htitle Hb.
  destruct (set_title_inv _ _ _ Htitle) as (_ & Hb1 & Hsame).
  rewrite Hb in Hb1.
  destruct (find_body_shape_lookup _ _ Hb1) as (ph & Hph & _).
  unfold fill_slide. rewrite Htitle. cbn [rbind].
  rewrite (set_body_unfold _ _ _ _ Hb1 Hph).
  unfold fill_text_frame. rewrite Hget. cbn [rbind].
  destruct items as [|first rest]; [done|].
  cbn [forallb] in Hbad.
  destruct first as [| | | |t| |]; try (by eexists).
  cbn [set_text]. destruct (first_refused t) as [r|] eqn:Hr; [by eexists|].
  cbn [rbind].
  destruct (add_points_raise rest (frame_of_lines t)) as [e ->]; [|by eexists].
  destruct (storable t) eqn:Ht.
  - simpl in Hbad. by rewrite Ht in Hbad.
  - destruct (first_refused_some _ Ht) as [r Hsome]. congruence.
Qed.

End MoreOnTheDeckBuilder.

Section MoreOnRecords.

Lemma get_not_dict v key dflt :
  (∀ d, v ≠ PyDict d) → get v key dflt = Raise (no_attribute v "get").
Proof. intros H. destruct v; try done. by destruct (H entries). Qed.

Lemma some_shape_found (s : slide) :
  placeholders s ≠ [] →
  is_Some (shapes_title s) ∨ is_Some (find_body_shape s).
Proof.
  destruct (placeholders s) as [|ph phs] eqn:Hphs; [done|]. intros _.
  unfold shapes_title, find_body_shape. rewrite Hphs. simpl.
  destruct (decide (idx ph = 0%nat)) as [H0|H0]; [left; by eexists|].
  right. destruct (decide (1 ≤ idx ph)%nat); [by eexists|lia].
Qed.

Lemma fill_slide_no_placeholders v (s : slide) :
  placeholders s = [] → fill_slide v s = Ok s.
Proof.
  intros Hnone. unfold fill_slide, set_title, shapes_title.
  rewrite Hnone. cbn [list_find fmap option_fmap option_map rbind].
  unfold set_body, find_body_shape. by rewrite Hnone.
Qed.

Lemma record_not_dict_raises v (s : slide) :
  (∀ d, v ≠ PyDict d) → placeholders s ≠ [] →
  fill_slide v s = Raise (no_attribute v "get").
Proof.
  intros Hv Hsome. unfold fill_slide, set_title.
  destruct (shapes_title s) as [title|] eqn:Ht.
  - by rewrite (get_not_dict _ _ _ Hv).
  - cbn [rbind].
    destruct (some_shape_found _ Hsome) as [[? ?]|[body Hb]]; [congruence|].
    destruct (find_body_shape_lookup _ _ Hb) as (ph & Hph & _).
    rewrite (set_body_unfold _ _ _ _ Hb Hph). unfold fill_text_frame.
    by rewrite (get_not_dict _ _ _ Hv).
Qed.

(** X10. A record that is not a dict (a string, a number, a list,
    null) cannot be read: on a slide with at least one placeholder,
    filling raises the missing [get] attribute; on a slide without
    placeholders the record is never looked at and the slide is left as
    it is. *)
Theorem record_not_dict (v : pyval) (s : slide) :
  (∀ d, v ≠ PyDict d) →
  (placeholders s ≠ [] → fill_slide v s = Raise (no_attribute v "get")) ∧
  (placeholders s = [] → fill_slide v s = Ok s).
Proof.
  intros Hv. split.
  - by apply record_not_dict_raises.
  - intros Hnone. by apply fill_slide_no_placeholders.
Qed.

Lemma new_slide_no_placeholders layout :
  Forall (fun ph => cloneable ph = false) (layout_placeholders layout) →
  placeholders (new_slide layout) = [].
Proof.
  unfold new_slide. cbn [placeholders].
  induction 1 as [|ph phs Hph _ IH]; simpl; [done|]. by rewrite Hph.
Qed.

(** X11. When the selected layout has nothing to clone (only date,
    footer and slide-number placeholders, or none), the loop fills
    nothing and reads no record: whatever is iterated, it adds one
    untouched new slide per item and does not fail. *)
Theorem layout_without_placeholders_ignores_records
    (layout : slide_layout) (structured_slides : pyval)
    (records : list pyval) (prs : presentation) :
  Forall (fun ph => cloneable ph = false) (layout_placeholders layout) →
  iter structured_slides = Ok records →
  build_slides layout structured_slides prs =
  Ok (Prs (slide_layouts prs)
          (slides prs ++ repeat (new_slide layout) (length records))).
Proof.
  intros Hnone%new_slide_no_placeholders Hiter.
  unfold build_slides. rewrite Hiter. cbn [rbind]. clear Hiter.
  revert prs. induction records as [|r records IH]; intros prs; simpl.
  - rewrite app_nil_r. by destruct prs.
  - rewrite slide_step_unfold.
    assert (fill_slide r (new_slide layout) = Ok (new_slide layout)) as ->.
    { by apply fill_slide_no_placeholders. }
    cbn [rbind]. rewrite IH. cbn [slide_layouts slides].
    by rewrite <- app_assoc.
Qed.

Lemma slide_loop_raise layout good bad rest e : ∀ prs,
  Forall (fun r => ∃ s, fill_slide r (new_slide layout) = Ok s) good →
  fill_slide bad (new_slide layout) = Raise e →
  for_each (slide_step layout) (good ++ bad :: rest) prs = Raise e.
Proof.
  induction good as [|r good IH]; intros prs Hgood Hbad; simpl.
  - rewrite slide_step_unfold, Hbad. done.
  - inversion Hgood as [|? ? [s Hs] Hrest]; subst.
    rewrite slide_step_unfold, Hs. cbn [rbind]. by apply IH.
Qed.

(** X12. The first record that fails ends the whole build: its
    exception is the one reported, nothing is saved and None is
    returned, however many records before it went well. *)
Theorem first_failing_record_aborts
    (template : UploadedFile) (prs0 : presentation) (layout : slide_layout)
    (good : list pyval) (bad : pyval) (rest : list pyval) (e : exn) :
  Presentation template = Ok prs0 →
  select_layout prs0 = Ok layout →
  Forall (fun r => ∃ s, fill_slide r (new_slide layout) = Ok s) good →
  fill_slide bad (new_slide layout) = Raise e →
  create_presentation (PyList (good ++ bad :: rest)) template =
  (Ok None, [PptxPresentation template; StError (deck_error_message e)]).
Proof.
  intros Hopen Hlayout Hgood Hbad.
  rewrite deck_eq, deck_try_eq. unfold built. rewrite Hopen. cbn [rbind].
  rewrite Hlayout. cbn [rbind]. unfold build_slides. cbn [iter rbind].
  by rewrite (slide_loop_raise _ _ _ _ _ _ Hgood Hbad).
Qed.

End MoreOnRecords.

Section MoreOnTheHandler.

(** The handler with its three inputs present, as one equation. *)
Lemma handler_eq text guidance api_key template :
  text ≠ [] → api_key ≠ [] →
  generate_button_handler true text guidance api_key (Some template) =
  (Ok (),
   StSpinner spinner_text ::
   trace (get_slide_structure_from_llm text guidance api_key) ++
   match outcome (get_slide_structure_from_llm_try text guidance api_key) with
   | Ok v =>
       if truthy v then
         match create_presentation_try v template with
         | (Ok buffer, tr) =>
             tr ++ [StSuccess success_message;
                    StDownloadButton download_label buffer
                      (lit "generated_presentation.pptx") download_mime true]
         | (Raise e, tr) => tr ++ [StError (deck_error_message e)]
         end
       else []
   | Raise _ => []
   end).
Proof.
  intros Htext Hkey. rewrite handler_inputs_present by done.
  unfold bind at 1 2. rewrite llm_eq.
  destruct (outcome (get_slide_structure_from_llm_try _ _ _)) as [v|e];
    cbn [emit trace snd truthy app]; [|by rewrite app_nil_r].
  destruct (truthy v); [|done].
  unfold bind. rewrite deck_eq.
  destruct (create_presentation_try v template) as [[buffer|e] tr]; simpl;
    by rewrite ?app_nil_r.
Qed.

(** X13. The whole generation when nothing fails: spinner, key, one
    chat request, the template opened, the document saved with one new
    slide per record after the slides of the template, the success
    message, and the download of the saved bytes, rewound, under the
    fixed file name and MIME type. *)
Theorem generation_end_to_end
    (text guidance api_key : str) (template : UploadedFile)
    (outline : list pyval) (prs0 : presentation) (layout : slide_layout) :
  text ≠ [] → api_key ≠ [] →
  outcome (get_slide_structure_from_llm_try text guidance api_key)
    = Ok (PyList outline) →
  outline ≠ [] →
  Presentation template = Ok prs0 →
  select_layout prs0 = Ok layout →
  Forall (fun r => is_slide_record r = true) outline →
  ∃ new : list slide,
    length new = length outline ∧
    Forall2 (fun r s => fill_slide r (new_slide layout) = Ok s) outline new ∧
    let prs := Prs (slide_layouts prs0) (slides prs0 ++ new) in
    ∀ data, pptx_bytes prs = Ok data →
      generate_button_handler true text guidance api_key (Some template) =
      (Ok (),
       [StSpinner spinner_text] ++ llm_events text guidance api_key ++
       [PptxPresentation template; PptxSave prs;
        StSuccess success_message;
        StDownloadButton download_label (MkBytesIO data 0)
          (lit "generated_presentation.pptx") download_mime true]).
Proof.
  intros Htext Hkey Hllm Hne Hopen Hlayout Hrecords.
  destruct (slide_loop_ok layout outline prs0) as (new & Hnew & Hloop).
  { eapply Forall_impl; [exact Hrecords|]. intros r Hr. by apply fill_slide_ok. }
  exists new. split; [symmetry; by eapply Forall2_length|]. split; [done|].
  intros prs data Hsave. rewrite handler_eq, llm_eq, Hllm by done.
  assert (truthy (PyList outline) = true) as -> by (by destruct outline).
  rewrite deck_try_eq. unfold built, build_slides.
  rewrite Hopen. cbn [rbind]. rewrite Hlayout. cbn [rbind iter].
  rewrite Hloop. fold prs. unfold buffer_of. rewrite Hsave. cbn [rbind trace snd].
  done.
Qed.

(** X14. The handler itself never raises, and a request goes to the
    LLM exactly when the button was pressed with text, key and
    template all present. *)
Theorem handler_total_and_requests_iff_inputs
    (generate_button : bool) (text guidance api_key : str)
    (uploaded_template : option UploadedFile) :
  outcome (generate_button_handler generate_button text guidance api_key
             uploaded_template) = Ok () ∧
  (Exists (fun ev => is_llm_event ev = true)
     (trace (generate_button_handler generate_button text guidance api_key
               uploaded_template))
   ↔ generate_button = true ∧ text ≠ [] ∧ api_key ≠ [] ∧
     uploaded_template ≠ None).
Proof.
  destruct generate_button;
    [|simpl; rewrite Exists_nil; intuition congruence].
  destruct text as [|c text];
    [simpl; rewrite Exists_cons, Exists_nil; simpl; intuition congruence|].
  destruct api_key as [|k api_key];
    [simpl; rewrite Exists_cons, Exists_nil; simpl; intuition congruence|].
  destruct uploaded_template as [template|];
    [|simpl; rewrite Exists_cons, Exists_nil; simpl; intuition congruence].
  rewrite handler_eq by done. split; [done|].
  cbn [trace snd]. rewrite llm_eq.
  split; [done|]. intros _. apply Exists_cons_tl.
  destruct (outcome _); cbn [snd llm_events app]; by apply Exists_cons_hd.
Qed.

(** X15. Any outline that Python takes for false (null, false, 0, an
    empty string, list or object) ends the generation after the
    request, without message, template or download. *)
Theorem falsy_outline_stops_silently
    (text guidance api_key : str) (template : UploadedFile) (v : pyval) :
  text ≠ [] → api_key ≠ [] →
  outcome (get_slide_structure_from_llm_try text guidance api_key) = Ok v →
  truthy v = false →
  generate_button_handler true text guidance api_key (Some template) =
  (Ok (), StSpinner spinner_text :: llm_events text guidance api_key).
Proof.
  intros Htext Hkey Hv Hfalsy.
  rewrite handler_eq, llm_eq, Hv, Hfalsy by done.
  cbn [trace snd]. by rewrite app_nil_r.
Qed.

(** X16. With the inputs present, the template is opened exactly when
    the request returned an outline that Python takes for true, and the
    success message and the download appear exactly when, in addition,
    the deck builder returned a buffer. *)
Theorem deck_and_download_iff
    (text guidance api_key : str) (template : UploadedFile) :
  text ≠ [] → api_key ≠ [] →
  (Exists (fun ev => is_pptx_event ev = true)
     (trace (generate_button_handler true text guidance api_key (Some template)))
   ↔ ∃ v, outcome (get_slide_structure_from_llm_try text guidance api_key) = Ok v ∧
          truthy v = true) ∧
  (Exists (fun ev => is_success_or_download ev = true)
     (trace (generate_button_handler true text guidance api_key (Some template)))
   ↔ ∃ v buffer,
       outcome (get_slide_structure_from_llm_try text guidance api_key) = Ok v ∧
       truthy v = true ∧
       outcome (create_presentation_try v template) = Ok buffer).
Proof.
  intros Htext Hkey. rewrite handler_eq, llm_eq by done.
  destruct (outcome (get_slide_structure_from_llm_try _ _ _)) as [v|e].
  - destruct (truthy v) eqn:Htruthy.
    + pose proof (deck_try_eq v template) as Hdeck. rewrite Hdeck.
      destruct (built v template) as [prs|e];
        [destruct (buffer_of prs) as [buffer|e]|];
        cbn [trace outcome fst snd llm_events app];
        rewrite ?Exists_cons, ?Exists_nil; simpl; (split; split);
        first
          [ intros _; by repeat first [left; reflexivity | right]
          | intros _; by exists v
          | intros _; exists v; eexists; by rewrite Hdeck
          | intros (v0 & buffer0 & [= <-] & _ & Hb); by rewrite Hdeck in Hb
          | intuition discriminate ].
    + cbn [trace outcome fst snd llm_events app].
      rewrite ?Exists_cons, ?Exists_nil; simpl; (split; split);
        first
          [ intros (v0 & [= <-] & Hv); congruence
          | intros (v0 & buffer0 & [= <-] & Hv & _); congruence
          | intuition discriminate ].
  - cbn [trace outcome fst snd llm_events app].
    rewrite ?Exists_cons, ?Exists_nil; simpl; (split; split);
      first
        [ by intros (v0 & ? & _)
        | by intros (v0 & buffer0 & ? & _)
        | intuition discriminate ].
Qed.

End MoreOnTheHandler.

Section MoreOnOutlines.


End MoreOnOutlines.

End App.

(** ** The claims at work in the small world *)



Lemma select_layout_first_match_else_index_1_witness :
  select_layout Demo.deck = Ok Demo.title_and_content ∧
  select_layout Demo.plain_deck = Ok Demo.section_header.
Proof.
  split.
  - apply (proj1 (select_layout_first_match_else_index_1 Demo.deck)
                 [Demo.title_slide] Demo.title_and_content [Demo.blank]).
    + reflexivity.
    + repeat constructor. intros [_ Hc].
      apply not_contains_occurs in Hc; [exact Hc | reflexivity].
    + apply contains_occurs. reflexivity.
    + apply contains_occurs. reflexivity.
  - apply (proj2 (select_layout_first_match_else_index_1 Demo.plain_deck)).
    + repeat constructor; intros [Ht _];
        (apply not_contains_occurs in Ht; [exact Ht | reflexivity]).
    + reflexivity.
Defined.

Lemma fenced_reply_unwrapped_plain_reply_unchanged_witness :
  get_slide_structure_from_llm (Demo.chat Demo.fenced_reply) Demo.json_loads
    (lit "Company X sells widgets") (lit "investor pitch") (lit "sk-1")
  = (Ok (PyList [PyDict []]),
     llm_events (lit "Company X sells widgets") (lit "investor pitch") (lit "sk-1")) ∧
  get_slide_structure_from_llm (Demo.chat (lit " []")) Demo.json_loads
    (lit "Company X sells widgets") [] (lit "sk-1")
  = (Ok (PyList []), llm_events (lit "Company X sells widgets") [] (lit "sk-1")).
Proof.
  split.
  - exact (proj2 (proj2 (proj1
      (fenced_reply_unwrapped_plain_reply_unchanged
         (Demo.chat Demo.fenced_reply) Demo.json_loads
         (lit "Company X sells widgets") (lit "investor pitch") (lit "sk-1")
         Demo.fenced_reply eq_refl)
      (newline ++ lit "[{}]" ++ newline) eq_refl))).
  - exact (proj2 (proj2
      (fenced_reply_unwrapped_plain_reply_unchanged
         (Demo.chat (lit " []")) Demo.json_loads
         (lit "Company X sells widgets") [] (lit "sk-1")
         (lit " []") eq_refl)
      eq_refl)).
Defined.

Lemma unwrap_fence_decided_by_prefix_witness :
  unwrap_fence (Some (lit "```" ++ newline ++ lit "[]" ++ newline ++ lit "```"))
  = Ok (lit "```" ++ newline ++ lit "[]" ++ newline ++ lit "```").
Proof.
  exact (proj2 (proj2 (proj2 (unwrap_fence_decided_by_prefix [])))
           (newline ++ lit "[]" ++ newline) eq_refl).
Defined.

Lemma body_of_A_B_C_witness :
  ∃ s2 ph,
    fill_slide Demo.refusal Demo.record_abc (new_slide Demo.title_and_content) = Ok s2 ∧
    find_body_shape s2 = Some 1%nat ∧
    placeholders s2 !! 1%nat = Some ph ∧
    text_frame ph =
      MkTextFrame (Paragraph (lit "A") 0)
                  [Paragraph (lit "B") 1; Paragraph (lit "C") 1].
Proof.
  exact (body_of_A_B_C Demo.refusal Demo.record_abc (new_slide Demo.title_and_content) _ 1
           eq_refl eq_refl eq_refl).
Defined.

Lemma body_of_empty_or_non_list_content_witness :
  ∃ s2 ph,
    fill_slide Demo.refusal Demo.record_text (new_slide Demo.title_and_content) = Ok s2 ∧
    placeholders s2 !! 1%nat = Some ph ∧
    paragraphs (text_frame ph) = [empty_paragraph].
Proof.
  destruct (body_of_empty_or_non_list_content Demo.refusal
              Demo.record_text (PyStr (lit "none"))
              (new_slide Demo.title_and_content) _ 1
              (Placeholder 1 OBJECT empty_text_frame)
              eq_refl (or_intror eq_refl) eq_refl eq_refl eq_refl)
    as (s2 & ph & Hfill & Hph & _ & Hpar & _).
  exists s2, ph. repeat split; assumption.
Defined.

Lemma missing_title_and_content_keys_witness :
  set_title Demo.refusal Demo.record_bare (new_slide Demo.title_and_content)
  = Ok (new_slide Demo.title_and_content) ∧
  set_body Demo.refusal Demo.record_bare (new_slide Demo.title_and_content)
  = Ok (new_slide Demo.title_and_content) ∧
  ∃ s', slide_step Demo.refusal Demo.title_and_content Demo.deck Demo.record_bare
        = Ok (Prs (slide_layouts Demo.deck) [s']).
Proof.
  pose proof (missing_title_and_content_keys Demo.refusal []
                (new_slide Demo.title_and_content)) as (Ht & Hb & Hboth).
  split; [|split].
  - exact (proj2 (Ht eq_refl) 0%nat (Placeholder 0 TITLE empty_text_frame)
             eq_refl eq_refl).
  - exact (proj2 (Hb eq_refl) 1%nat (Placeholder 1 OBJECT empty_text_frame)
             eq_refl eq_refl).
  - destruct (Hboth eq_refl eq_refl Demo.title_and_content Demo.deck)
      as (s' & _ & Hstep).
    exists s'. exact Hstep.
Defined.

Lemma exceptions_caught_and_reported_witness :
  (∃ tr, get_slide_structure_from_llm (Demo.chat (lit "Sorry, no.")) Demo.json_loads
           (lit "text") [] (lit "sk-1") = (Ok PyNone, tr)) ∧
  (∃ tr, create_presentation Demo.open Demo.bytes Demo.refusal (PyList [PyInt 1]) Demo.template
         = (Ok None, tr)) ∧
  Forall (fun ev => is_pptx_event ev = false ∧ is_success_or_download ev = false)
    (trace (generate_button_handler (Demo.chat (lit "Sorry, no.")) Demo.json_loads
              Demo.open Demo.bytes Demo.refusal true (lit "text") [] (lit "sk-1")
              (Some Demo.template))) ∧
  Forall (fun ev => is_success_or_download ev = false)
    (trace (generate_button_handler (Demo.chat (lit "[1]")) Demo.json_loads
              Demo.open Demo.bytes Demo.refusal true (lit "text") [] (lit "sk-1")
              (Some Demo.template))).
Proof.
  split; [|split; [|split]].
  - eexists.
    exact (proj2 (proj1 (exceptions_caught_and_reported
                           (Demo.chat (lit "Sorry, no.")) Demo.json_loads
                           Demo.open Demo.bytes Demo.refusal)
                        (lit "text") [] (lit "sk-1")) _ _ eq_refl).
  - eexists.
    exact (proj2 (proj1 (proj2 (exceptions_caught_and_reported
                                  (Demo.chat (lit "[1]")) Demo.json_loads
                                  Demo.open Demo.bytes Demo.refusal))
                        (PyList [PyInt 1]) Demo.template) _ _ eq_refl).
  - refine (proj2 (proj1 (proj2 (proj2 (exceptions_caught_and_reported
                                  (Demo.chat (lit "Sorry, no.")) Demo.json_loads
                                  Demo.open Demo.bytes Demo.refusal)))
                        (lit "text") [] (lit "sk-1") Demo.template _ _ _ _ eq_refl));
      discriminate.
  - refine (proj2 (proj2 (proj2 (proj2 (exceptions_caught_and_reported
                                  (Demo.chat (lit "[1]")) Demo.json_loads
                                  Demo.open Demo.bytes Demo.refusal)))
                        (lit "text") [] (lit "sk-1") Demo.template
                        (PyList [PyInt 1]) _ _ _ _ eq_refl eq_refl eq_refl));
      discriminate.
Defined.

Lemma missing_input_warns_and_aborts_witness :
  generate_button_handler (Demo.chat (lit "[]")) Demo.json_loads
    Demo.open Demo.bytes Demo.refusal true (lit "text") [] (lit "sk-1") None
  = (Ok (), [StWarning (lit "Please upload a PowerPoint template.")]).
Proof.
  refine (proj2 (proj2 (missing_input_warns_and_aborts
                   (Demo.chat (lit "[]")) Demo.json_loads Demo.open Demo.bytes Demo.refusal
                   (lit "text") [] (lit "sk-1") None
                   (or_intror (or_intror eq_refl)))) _ _ eq_refl);
    discriminate.
Defined.

Lemma empty_outline_stops_silently_witness :
  generate_button_handler (Demo.chat (lit "[]")) Demo.json_loads
    Demo.open Demo.bytes Demo.refusal true (lit "text") [] (lit "sk-1") (Some Demo.template)
  = (Ok (), StSpinner spinner_text :: llm_events (lit "text") [] (lit "sk-1")).
Proof.
  refine (proj1 (empty_outline_stops_silently
                   (Demo.chat (lit "[]")) Demo.json_loads Demo.open Demo.bytes Demo.refusal
                   (lit "text") [] (lit "sk-1") Demo.template _ _ eq_refl));
    discriminate.
Defined.

(** ** The further properties at work in the small world *)

Lemma prompt_embeds_text_and_guidance_witness :
  occurs (lit "investor pitch")
    (prompt_of (lit "Company X sells widgets") (lit "investor pitch")).
Proof.
  apply (proj1 (proj2 (prompt_embeds_text_and_guidance
                         (lit "Company X sells widgets") (lit "investor pitch")))).
  discriminate.
Defined.

Lemma padded_fenced_reply_unwrapped_witness :
  unwrap_fence
    (Some (lit "  " ++ (fence ++ (newline ++ lit "[{}]" ++ newline) ++ closing_fence)
           ++ newline))
  = Ok (newline ++ lit "[{}]" ++ newline).
Proof.
  apply (padded_fenced_reply_unwrapped (lit "  ") newline
           (newline ++ lit "[{}]" ++ newline)).
  - repeat constructor.
  - repeat constructor.
Defined.

Lemma unwrapped_length_witness :
  unwrap_fence (Some (lit " ```json`` ")) = Ok [].
Proof.
  destruct (unwrapped_length (lit " ```json`` ") eq_refl)
    as (u & Hu & _ & Hshort).
  rewrite Hu. f_equal. apply Hshort. vm_compute. lia.
Defined.

Lemma reply_without_content_reported_witness :
  outcome (get_slide_structure_from_llm Demo2.chat_none Demo.json_loads
             (lit "text") [] (lit "sk-1")) = Ok PyNone.
Proof.
  rewrite (reply_without_content_reported Demo2.chat_none Demo.json_loads
             (lit "text") [] (lit "sk-1") eq_refl).
  reflexivity.
Defined.

Lemma select_layout_member_or_index_error_witness :
  Demo.title_and_content ∈ slide_layouts Demo.deck ∧
  ∃ e, select_layout Demo2.single_layout_deck = Raise e ∧
       e = Exn IndexError (lit "slide layout index out of range").
Proof.
  split.
  - exact (proj1 (select_layout_member_or_index_error Demo.deck)
             Demo.title_and_content eq_refl).
  - destruct (proj2 (proj1 (proj2 (select_layout_member_or_index_error
                                     Demo2.single_layout_deck))))
      as [e He].
    + split; [repeat constructor | simpl; lia].
    + exists e. split; [exact He|].
      exact (proj2 (proj2 (select_layout_member_or_index_error
                             Demo2.single_layout_deck)) e He).
Defined.

Lemma fill_slide_touches_title_and_body_only_witness :
  ∃ s2, fill_slide Demo.refusal Demo.record_abc (new_slide Demo2.two_content) = Ok s2 ∧
        placeholders s2 !! 2%nat = Some (Placeholder 2 OBJECT empty_text_frame).
Proof.
  eexists. split; [reflexivity|].
  refine (proj2 (proj2 (proj2
            (fill_slide_touches_title_and_body_only Demo.refusal Demo.record_abc
               (new_slide Demo2.two_content) _ eq_refl)))
            2%nat (Placeholder 2 OBJECT empty_text_frame) eq_refl _ _);
    discriminate.
Defined.

Lemma body_of_strings_witness :
  ∃ s2 ph,
    fill_slide Demo.refusal Demo.record_abc (new_slide Demo.title_and_content)
    = Ok s2 ∧
    placeholders s2 !! 1%nat = Some ph ∧
    paragraphs (text_frame ph) =
      [Paragraph (lit "A") 0; Paragraph (lit "B") 1; Paragraph (lit "C") 1].
Proof.
  assert (Forall (fun x => storable x = true) [lit "A"; lit "B"; lit "C"])
    as Hall by repeat constructor.
  destruct (body_of_strings Demo.refusal Demo.record_abc
              (new_slide Demo.title_and_content)
              _ 1 (lit "A") [lit "B"; lit "C"] eq_refl Hall eq_refl eq_refl)
    as (s2 & ph & Hfill & Hph & _ & Hplain).
  exists s2, ph. split; [exact Hfill|]. split; [exact Hph|].
  apply Hplain. repeat constructor.
Defined.

Lemma content_item_not_str_raises_witness :
  (∃ e, fill_slide Demo.refusal Demo2.record_mixed
          (new_slide Demo.title_and_content) = Raise e) ∧
  (∃ e, fill_slide Demo.refusal Demo2.record_refused
          (new_slide Demo.title_and_content) = Raise e).
Proof.
  split.
  - exact (content_item_not_str_raises Demo.refusal Demo2.record_mixed
             (new_slide Demo.title_and_content) _ 1
             [PyStr (lit "A"); PyInt 5; PyStr (lit "C")]
             eq_refl eq_refl eq_refl eq_refl).
  - exact (content_item_not_str_raises Demo.refusal Demo2.record_refused
             (new_slide Demo.title_and_content) _ 1
             [PyStr (lit "A"); PyStr [66; 65534]%N]
             eq_refl eq_refl eq_refl eq_refl).
Defined.

Lemma record_not_dict_witness :
  fill_slide Demo.refusal (PyStr (lit "title")) (new_slide Demo.title_and_content)
  = Raise (no_attribute (PyStr (lit "title")) "get") ∧
  fill_slide Demo.refusal (PyStr (lit "title")) (new_slide Demo.blank)
  = Ok (new_slide Demo.blank).
Proof.
  split.
  - apply (proj1 (record_not_dict Demo.refusal (PyStr (lit "title"))
                    (new_slide Demo.title_and_content)
                    (fun d H => ltac:(discriminate H)))).
    discriminate.
  - apply (proj2 (record_not_dict Demo.refusal (PyStr (lit "title")) (new_slide Demo.blank)
                    (fun d H => ltac:(discriminate H)))).
    reflexivity.
Defined.

Lemma layout_without_placeholders_ignores_records_witness :
  build_slides Demo.refusal Demo.blank (PyStr (lit "ab")) Demo.deck
  = Ok (Prs (slide_layouts Demo.deck)
            [new_slide Demo.blank; new_slide Demo.blank]).
Proof.
  apply (layout_without_placeholders_ignores_records Demo.refusal Demo.blank
           (PyStr (lit "ab")) [PyStr (lit "a"); PyStr (lit "b")] Demo.deck).
  - repeat constructor.
  - reflexivity.
Defined.

Lemma first_failing_record_aborts_witness :
  create_presentation Demo.open Demo.bytes Demo.refusal
    (PyList [Demo.record_abc; PyInt 1; Demo.record_bare]) Demo.template
  = (Ok None,
     [PptxPresentation Demo.template;
      StError (deck_error_message (no_attribute (PyInt 1) "get"))]).
Proof.
  apply (first_failing_record_aborts Demo.open Demo.bytes Demo.refusal Demo.template
           Demo.deck Demo.title_and_content
           [Demo.record_abc] (PyInt 1) [Demo.record_bare]).
  - reflexivity.
  - reflexivity.
  - constructor; [eexists; reflexivity | constructor].
  - reflexivity.
Defined.

Lemma generation_end_to_end_witness :
  ∃ prs,
    length (slides prs) = 1%nat ∧
    generate_button_handler (Demo.chat Demo.fenced_reply) Demo.json_loads
      Demo.open Demo.bytes Demo.refusal true (lit "text") [] (lit "sk-1") (Some Demo.template)
    = (Ok (),
       [StSpinner spinner_text] ++ llm_events (lit "text") [] (lit "sk-1") ++
       [PptxPresentation Demo.template; PptxSave prs;
        StSuccess success_message;
        StDownloadButton download_label
          (MkBytesIO [Byte.x50; Byte.x4b; Byte.x00] 0)
          (lit "generated_presentation.pptx") download_mime true]).
Proof.
  destruct (generation_end_to_end (Demo.chat Demo.fenced_reply) Demo.json_loads
              Demo.open Demo.bytes Demo.refusal (lit "text") [] (lit "sk-1") Demo.template
              [PyDict []] Demo.deck Demo.title_and_content)
    as (new & Hlen & _ & Hrun); try discriminate; try reflexivity.
  - repeat constructor.
  - destruct new as [|s [|? ?]]; try discriminate Hlen.
    exists (Prs (slide_layouts Demo.deck) (slides Demo.deck ++ [s])).
    split; [reflexivity|]. apply Hrun. reflexivity.
Defined.

Lemma handler_total_and_requests_iff_inputs_witness :
  Exists (fun ev => is_llm_event ev = true)
    (trace (generate_button_handler (Demo.chat (lit "[]")) Demo.json_loads
              Demo.open Demo.bytes Demo.refusal true (lit "text") [] (lit "sk-1")
              (Some Demo.template))).
Proof.
  apply (proj2 (proj2 (handler_total_and_requests_iff_inputs
                         (Demo.chat (lit "[]")) Demo.json_loads
                         Demo.open Demo.bytes Demo.refusal true (lit "text") [] (lit "sk-1")
                         (Some Demo.template)))).
  repeat split; discriminate.
Defined.

Lemma falsy_outline_stops_silently_witness :
  generate_button_handler (Demo.chat (lit "{}")) Demo2.json_loads
    Demo.open Demo.bytes Demo.refusal true (lit "text") [] (lit "sk-1") (Some Demo.template)
  = (Ok (), StSpinner spinner_text :: llm_events (lit "text") [] (lit "sk-1")).
Proof.
  refine (falsy_outline_stops_silently (Demo.chat (lit "{}")) Demo2.json_loads
            Demo.open Demo.bytes Demo.refusal (lit "text") [] (lit "sk-1") Demo.template
            (PyDict []) _ _ eq_refl eq_refl);
    discriminate.
Defined.

Lemma deck_and_download_iff_witness :
  Exists (fun ev => is_success_or_download ev = true)
    (trace (generate_button_handler (Demo.chat (lit "[{}]")) Demo.json_loads
              Demo.open Demo.bytes Demo.refusal true (lit "text") [] (lit "sk-1")
              (Some Demo.template))).
Proof.
  refine (proj2 (proj2 (deck_and_download_iff (Demo.chat (lit "[{}]"))
                          Demo.json_loads Demo.open Demo.bytes Demo.refusal
                          (lit "text") [] (lit "sk-1") Demo.template _ _)) _);
    try discriminate.
  eexists (PyList [PyDict []]), _. repeat split; reflexivity.
Defined.


(** On a layout that stores its placeholders as idx 2, 0, 1 the body
    filled is the shape of idx 1. *)
Lemma shuffled_layout_fills_idx_1 :
  ∃ s2 ph,
    fill_slide Demo.refusal Demo.record_abc (new_slide Demo2.shuffled) = Ok s2 ∧
    find_body_shape s2 = Some 1%nat ∧
    placeholders s2 !! 1%nat = Some ph ∧
    idx ph = 1%nat ∧
    paragraphs (text_frame ph) =
      [Paragraph (lit "A") 0; Paragraph (lit "B") 1; Paragraph (lit "C") 1].
Proof. eexists _, _. repeat split; reflexivity. Qed.
